(** * eth_balance_server: a shallow embedding of the MCP balance server

    The server exposes two tools, [get_wallet_balance] and
    [analyze_wallet_risk], on top of a registry of chain clients that
    the startup code builds.  Python values are modelled by [pyval],
    IEEE binary64 numbers by the Standard Library's [spec_float],
    exceptions and the network/log effects by a small monad [M] that
    carries an outcome and the trace of events performed. *)

From Stdlib Require Import ZArith String Ascii List Bool Lia.
From Stdlib Require Import Floats.SpecFloat.
From stdpp Require Import gmap strings.

Local Open Scope Z_scope.
Local Open Scope string_scope.

(** ** Strings *)

Module Str.

(** [str.lower()] and [str.upper()] on the ASCII letters.  Bytes of
    other code points are kept: the only non-ASCII code point whose
    lower case is an ASCII letter is the Kelvin sign (to k), and no
    chain alias contains that letter. *)
Definition lower_ascii (c : ascii) : ascii :=
  let n := nat_of_ascii c in
  if ((65 <=? n)%nat && (n <=? 90)%nat)%bool then ascii_of_nat (n + 32) else c.

Definition upper_ascii (c : ascii) : ascii :=
  let n := nat_of_ascii c in
  if ((97 <=? n)%nat && (n <=? 122)%nat)%bool then ascii_of_nat (n - 32) else c.

Fixpoint map (f : ascii -> ascii) (s : string) : string :=
  match s with
  | EmptyString => EmptyString
  | String c s' => String (f c) (map f s')
  end.

Definition lower : string -> string := map lower_ascii.
Definition upper : string -> string := map upper_ascii.

(** [s in [a, b, ...]] on strings. *)
Definition mem (s : string) (l : list string) : bool :=
  existsb (String.eqb s) l.

End Str.

(** ** Binary64 floating point *)

Module F64.

Definition prec : Z := 53.
Definition emax : Z := 1024.

Definition div : spec_float -> spec_float -> spec_float := SFdiv prec emax.

(** [float(n)] for an integer: round to nearest, ties to even; the
    result is an infinity exactly when Python raises OverflowError. *)
Definition of_int (n : Z) : spec_float := binary_normalize prec emax n 0 false.

(** The binary64 number nearest to the exact quotient [n / d]: the
    division rounds once, whatever the sizes of [n] and [d]. *)
Definition of_ratio (n : Z) (d : positive) : spec_float :=
  let num := match n with
             | Z0 => S754_zero false
             | Zpos p => S754_finite false p 0
             | Zneg p => S754_finite true p 0
             end in
  div num (S754_finite false d 0).

Definition is_zero (x : spec_float) : bool :=
  match x with S754_zero _ => true | _ => false end.

Definition is_infinite (x : spec_float) : bool :=
  match x with S754_infinity _ => true | _ => false end.

(** The literal [1e9]. *)
Definition lit_1e9 : spec_float := of_int (10 ^ 9).

Definition one : spec_float := S754_finite false 4503599627370496 (-52).
Definition half : spec_float := S754_finite false 4503599627370496 (-53).

End F64.

(** ** Python values *)

#[warnings="-register-all"]
Inductive pyval :=
| PNone
| PBool (b : bool)
| PInt (n : Z)
| PFloat (x : spec_float)
| PStr (s : string)
| PList (l : list pyval)
| PDict (d : list (string * pyval)).

(** A [dict] with string keys, in insertion order. *)
Definition dict := list (string * pyval).

Fixpoint dict_get (d : dict) (k : string) : option pyval :=
  match d with
  | [] => None
  | (k', v) :: d' => if String.eqb k k' then Some v else dict_get d' k
  end.

(** [k in d] *)
Definition dict_has (d : dict) (k : string) : bool :=
  match dict_get d k with Some _ => true | None => false end.

(** ** Exceptions

    Only classes derived from [Exception] occur: they are what the
    clients, the HTTP library and the interpreter raise for a failed
    operation.  [ValueError] stands for the class and its subclasses. *)

Inductive exn_class :=
| ValueError
| KeyError
| AttributeError
| TypeError
| OverflowError
| ZeroDivisionError
| OtherException.

(** An exception instance: its class and [str(e)]. *)
Record exn := mk_exn { exn_cls : exn_class; exn_str : string }.

Definition isinstance_ValueError (e : exn) : bool :=
  match exn_cls e with ValueError => true | _ => false end.

(** [str(KeyError(k))] is the repr of the key. *)
Definition key_error (k : string) : exn := mk_exn KeyError ("'" ++ k ++ "'").

(** The outcome of a call into a collaborator. *)
Inductive result (A : Type) :=
| Success (a : A)
| Failure (e : exn).
Arguments Success {A} a.
Arguments Failure {A} e.

(** ** Collaborators and events *)

Definition Pubkey := string.

Inductive log_level := INFO | ERROR | CRITICAL.

(** The prompt posted to the classifier, with the parts of the
    f-string kept apart:
    "Analyze risk profile for {address} with {balance} {chain} balance". *)
Record http_request := mk_request {
  req_url : string;
  req_authorization : string;
  req_address : string;
  req_balance : pyval;
  req_chain : string
}.

(** An HTTP response as the two methods the handler calls on it. *)
Record http_response := mk_response {
  raise_for_status : result unit;
  json : result pyval
}.

(** The reply to the [web3_clientVersion] probe: [version['result']]. *)
Record rpc_response := mk_rpc { rpc_result : option string }.

Inductive event :=
| EvClientVersion (rpc_url : string)
| EvEthGetBalance (rpc_url address : string)
| EvSolGetBalance (endpoint : string) (pubkey : Pubkey)
| EvHttpPost (req : http_request)
| EvLog (level : log_level) (msg : string).

Definition is_network (ev : event) : bool :=
  match ev with EvLog _ _ => false | _ => true end.

Definition is_http_post (ev : event) : bool :=
  match ev with EvHttpPost _ => true | _ => false end.

Definition network_calls (t : list event) : list event := List.filter is_network t.
Definition http_posts (t : list event) : list event := List.filter is_http_post t.

(** Everything the server's own code does not define: the environment
    variables, the answers of the upstream services and of the address
    parser, and the interpreter's ordering of two lists (used by [max]
    only when two scores are both JSON arrays). *)
Record World := mk_world {
  getenv : string -> option string;
  web3_client_version : string -> result rpc_response;
  eth_get_balance : string -> string -> result Z;
  (** [Pubkey.from_string]: [inl msg] is the ValueError it raises *)
  pubkey_from_string : string -> string + Pubkey;
  sol_get_balance : string -> Pubkey -> result Z;
  http_post : http_request -> result http_response;
  seq_gt : list pyval -> list pyval -> result bool
}.

(** ** The effect monad: an outcome and the events performed *)

Inductive outcome (A : Type) :=
| Ok (a : A)
| Raise (e : exn)
| Exit (code : Z).
Arguments Ok {A} a.
Arguments Raise {A} e.
Arguments Exit {A} code.

Definition M (A : Type) : Type := outcome A * list event.

#[global] Instance M_ret : MRet M := fun A a => (Ok a, []).

#[global] Instance M_bind : MBind M := fun A B f c =>
  match c with
  | (Ok a, t) => let '(o, t') := f a in (o, (t ++ t')%list)
  | (Raise e, t) => (Raise e, t)
  | (Exit n, t) => (Exit n, t)
  end.

Definition raise {A} (e : exn) : M A := (Raise e, []).
Definition os_exit {A} (code : Z) : M A := (Exit code, []).
Definition emit (ev : event) : M unit := (Ok tt, [ev]).
Definition log (lvl : log_level) (msg : string) : M unit := emit (EvLog lvl msg).

Definition of_result {A} (r : result A) : M A :=
  match r with
  | Success a => mret a
  | Failure e => raise e
  end.

(** An awaited call into a collaborator: the event, then its outcome. *)
Definition call {A} (ev : event) (r : result A) : M A :=
  emit ev;; of_result r.

(** [try: c  except Exception as e: h e] *)
Definition try_except {A} (c : M A) (h : exn -> M A) : M A :=
  match c with
  | (Raise e, t) => let '(o, t') := h e in (o, (t ++ t')%list)
  | other => other
  end.

Definition run_outcome {A} (c : M A) : outcome A := fst c.
Definition run_trace {A} (c : M A) : list event := snd c.

(** ** The interpreter's operations used by the handlers *)

Module Py.

Definition type_name (v : pyval) : string :=
  match v with
  | PNone => "NoneType"
  | PBool _ => "bool"
  | PInt _ => "int"
  | PFloat _ => "float"
  | PStr _ => "str"
  | PList _ => "list"
  | PDict _ => "dict"
  end.

(** [d[k]] on a dict *)
Definition getitem (d : dict) (k : string) : M pyval :=
  match dict_get d k with
  | Some v => mret v
  | None => raise (key_error k)
  end.

(** [x[k]] for a string key [k] on any value *)
Definition subscript (x : pyval) (k : string) : M pyval :=
  match x with
  | PDict d => getitem d k
  | PList _ =>
      raise (mk_exn TypeError "list indices must be integers or slices, not str")
  | PStr _ => raise (mk_exn TypeError "string indices must be integers, not 'str'")
  | _ => raise (mk_exn TypeError
                  ("'" ++ type_name x ++ "' object is not subscriptable"))
  end.

Fixpoint chars (s : string) : list pyval :=
  match s with
  | EmptyString => []
  | String c s' => PStr (String c EmptyString) :: chars s'
  end.

(** The items a [for] loop over [v] visits. *)
Definition iterate (v : pyval) : M (list pyval) :=
  match v with
  | PList l => mret l
  | PDict d => mret (List.map (fun kv => PStr (fst kv)) d)
  | PStr s => mret (chars s)
  | _ => raise (mk_exn TypeError ("'" ++ type_name v ++ "' object is not iterable"))
  end.

(** Numbers as exact values: [XFin m e] is [m * 2^e]. *)
Inductive xnum :=
| XNaN
| XInf (neg : bool)
| XFin (m e : Z).

Definition num_of (v : pyval) : option xnum :=
  match v with
  | PBool b => Some (XFin (if b then 1 else 0) 0)
  | PInt n => Some (XFin n 0)
  | PFloat (S754_zero _) => Some (XFin 0 0)
  | PFloat (S754_infinity s) => Some (XInf s)
  | PFloat S754_nan => Some XNaN
  | PFloat (S754_finite s m e) => Some (XFin (if s then Zneg m else Zpos m) e)
  | _ => None
  end.

(** Numbers of either type compare by their exact values; a NaN is
    unordered. *)
Definition xcompare (x y : xnum) : option comparison :=
  match x, y with
  | XNaN, _ | _, XNaN => None
  | XInf s1, XInf s2 =>
      Some (match s1, s2 with
            | true, false => Lt
            | false, true => Gt
            | _, _ => Eq
            end)
  | XInf s, XFin _ _ => Some (if s then Lt else Gt)
  | XFin _ _, XInf s => Some (if s then Gt else Lt)
  | XFin m1 e1, XFin m2 e2 =>
      let e := Z.min e1 e2 in
      Some (Z.compare (m1 * 2 ^ (e1 - e)) (m2 * 2 ^ (e2 - e)))
  end.

Definition xgt (x y : xnum) : bool :=
  match xcompare x y with Some Gt => true | _ => false end.

(** [a > b] *)
Definition gt (w : World) (a b : pyval) : M bool :=
  match num_of a, num_of b with
  | Some x, Some y => mret (xgt x y)
  | _, _ =>
      match a, b with
      | PStr s, PStr t =>
          mret (match String.compare s t with Gt => true | _ => false end)
      | PList l1, PList l2 => of_result (seq_gt w l1 l2)
      | _, _ =>
          raise (mk_exn TypeError
                   ("'>' not supported between instances of '" ++ type_name a
                    ++ "' and '" ++ type_name b ++ "'"))
      end
  end.

(** The loop of [max(iterable, key=key)]: the item kept is replaced
    only by one whose key is strictly greater. *)
Fixpoint max_loop (w : World) (key : pyval -> M pyval)
    (maxitem maxval : pyval) (rest : list pyval) : M pyval :=
  match rest with
  | [] => mret maxitem
  | item :: rest' =>
      val ← key item;
      b ← gt w val maxval;
      if b : bool then max_loop w key item val rest'
      else max_loop w key maxitem maxval rest'
  end.

Definition max_by (w : World) (key : pyval -> M pyval) (iterable : pyval) : M pyval :=
  items ← iterate iterable;
  match items with
  | [] => raise (mk_exn ValueError "max() arg is an empty sequence")
  | first :: rest => val ← key first; max_loop w key first val rest
  end.

(** [int / float] *)
Definition truediv_int_float (n : Z) (y : spec_float) : M spec_float :=
  let x := F64.of_int n in
  if F64.is_infinite x then
    raise (mk_exn OverflowError "int too large to convert to float")
  else if F64.is_zero y then
    raise (mk_exn ZeroDivisionError "float division by zero")
  else mret (F64.div x y).

(** [str(v)] for a value of [os.getenv] *)
Definition str_opt (v : option string) : string :=
  match v with Some s => s | None => "None" end.

(** [not v] for a value of [os.getenv] *)
Definition falsy (v : option string) : bool :=
  match v with
  | None => true
  | Some s => String.eqb s EmptyString
  end.

End Py.

(** ** The registry of chain clients and the server object *)

Inductive client :=
| AsyncWeb3 (rpc_url : string)
| SolClient (endpoint : string).

(** [mcp.state.clients]: [None] until the attribute is assigned.
    Reading it before raises AttributeError; of its text only the part
    naming the attribute is kept. *)
Record mcp_state := mk_state { clients : option (gmap string client) }.

Definition mcp_initial : mcp_state := mk_state None.

Definition read_clients (st : mcp_state) : M (gmap string client) :=
  match clients st with
  | Some c => mret c
  | None => raise (mk_exn AttributeError "object has no attribute 'clients'")
  end.

(** [clients[k]] *)
Definition getitem_client (reg : gmap string client) (k : string) : M client :=
  match reg !! k with
  | Some c => mret c
  | None => raise (key_error k)
  end.

(** [await c.eth.get_balance(address)] *)
Definition eth_get_balance_of (w : World) (c : client) (address : string) : M Z :=
  match c with
  | AsyncWeb3 url => call (EvEthGetBalance url address) (eth_get_balance w url address)
  | SolClient _ => raise (mk_exn AttributeError "'AsyncClient' object has no attribute 'eth'")
  end.

(** [(await c.get_balance(pubkey)).value] *)
Definition get_balance_of (w : World) (c : client) (pubkey : Pubkey) : M Z :=
  match c with
  | SolClient ep => call (EvSolGetBalance ep pubkey) (sol_get_balance w ep pubkey)
  | AsyncWeb3 _ =>
      raise (mk_exn AttributeError "'AsyncWeb3' object has no attribute 'get_balance'")
  end.

(** [Pubkey.from_string(address)] *)
Definition Pubkey_from_string (w : World) (address : string) : M Pubkey :=
  match pubkey_from_string w address with
  | inr pk => mret pk
  | inl msg => raise (mk_exn ValueError msg)
  end.

Definition ether_unit : positive := 1000000000000000000.

(** Modelled from the spec: [AsyncWeb3.from_wei(n, "ether")] is the web3
    library's; the spec gives it as the smallest-unit count divided by
    10^18.  The exact quotient is kept as numerator and denominator. *)
Definition from_wei_ether (balance_wei : Z) : Z * positive := (balance_wei, ether_unit).

(** [float(q)] of an exact decimal: the nearest binary64 number. *)
Definition py_float (q : Z * positive) : spec_float := F64.of_ratio (fst q) (snd q).

(** ** The Balance Query Handler *)

Definition balance_result (chain : string) (balance : spec_float) : dict :=
  [("chain", PStr chain); ("balance", PFloat balance)].

Definition error_result (msg : string) : dict := [("error", PStr msg)].

(** The [try] block of [get_wallet_balance]. *)
Definition get_wallet_balance_body (st : mcp_state) (w : World)
    (address chain : string) : M dict :=
  let chain := Str.lower chain in
  reg ← read_clients st;
  if Str.mem chain ["eth"; "ethereum"] then
    c ← getitem_client reg "ethereum";
    balance_wei ← eth_get_balance_of w c address;
    mret (balance_result "Ethereum" (py_float (from_wei_ether balance_wei)))
  else if Str.mem chain ["polygon"; "matic"] then
    c ← getitem_client reg "polygon";
    balance_wei ← eth_get_balance_of w c address;
    mret (balance_result "Polygon" (py_float (from_wei_ether balance_wei)))
  else if String.eqb chain "arbitrum" then
    c ← getitem_client reg "arbitrum";
    balance_wei ← eth_get_balance_of w c address;
    mret (balance_result "Arbitrum" (py_float (from_wei_ether balance_wei)))
  else if String.eqb chain "solana" then
    pubkey ← Pubkey_from_string w address;
    c ← getitem_client reg "solana";
    value ← get_balance_of w c pubkey;
    balance ← Py.truediv_int_float value F64.lit_1e9;
    mret (balance_result "Solana" balance)
  else mret (error_result "Unsupported chain").

(** The two [except] clauses of [get_wallet_balance], in order. *)
Definition get_wallet_balance_except (e : exn) : M dict :=
  if isinstance_ValueError e then
    log ERROR ("Invalid address: " ++ exn_str e);;
    mret (error_result "Invalid wallet address")
  else
    log ERROR ("Balance check failed: " ++ exn_str e);;
    mret (error_result (exn_str e)).

Definition get_wallet_balance (st : mcp_state) (w : World)
    (address chain : string) : M dict :=
  try_except (get_wallet_balance_body st w address chain) get_wallet_balance_except.

(** ** The Risk Analysis Handler *)

Definition finbert_url : string :=
  "https://api-inference.huggingface.co/models/ProsusAI/finbert".

Definition analyze_wallet_risk_body (st : mcp_state) (w : World)
    (address chain : string) : M dict :=
  balance_data ← get_wallet_balance st w address chain;
  if dict_has balance_data "error" then mret balance_data
  else
    balance ← Py.getitem balance_data "balance";
    let req := mk_request finbert_url
                 ("Bearer " ++ Py.str_opt (getenv w "HF_TOKEN"))
                 address balance chain in
    response ← call (EvHttpPost req) (http_post w req);
    _ ← of_result (raise_for_status response);
    results ← of_result (json response);
    risk ← Py.max_by w (fun x => Py.subscript x "score") results;
    mret [("address", PStr address); ("chain", PStr chain);
          ("balance", balance); ("risk_analysis", risk)].

Definition analyze_wallet_risk_except (e : exn) : M dict :=
  log ERROR ("Risk analysis failed: " ++ exn_str e);;
  mret (error_result (exn_str e)).

Definition analyze_wallet_risk (st : mcp_state) (w : World)
    (address chain : string) : M dict :=
  try_except (analyze_wallet_risk_body st w address chain) analyze_wallet_risk_except.

(** ** The Startup Sequence *)

(** The loop of [initialize_blockchain_clients] over [chains.items()]:
    each chain is checked, probed and stored before the next one is
    looked at. *)
Fixpoint connect_chains (w : World) (chains : list (string * option string))
    (reg : gmap string client) : M (gmap string client) :=
  match chains with
  | [] => mret reg
  | (chain_name, rpc_url) :: rest =>
      if Py.falsy rpc_url then
        raise (mk_exn ValueError ("Missing RPC URL for " ++ chain_name))
      else
        let url := default EmptyString rpc_url in
        let w3 := AsyncWeb3 url in
        version ← call (EvClientVersion url) (web3_client_version w url);
        let reg := <[chain_name := w3]> reg in
        client_version ← match rpc_result version with
                         | Some r => mret r
                         | None => raise (key_error "result")
                         end;
        log INFO ("✅ Connected to " ++ Str.upper chain_name
                  ++ " node (Client: " ++ client_version ++ ")");;
        connect_chains w rest reg
  end.

Definition solana_endpoint : string := "https://api.mainnet-beta.solana.com".

Definition initialize_blockchain_clients (w : World) : M (gmap string client) :=
  let reg : gmap string client := ∅ in
  try_except
    (let chains := [("ethereum", getenv w "ETH_RPC");
                    ("polygon", getenv w "POL_RPC");
                    ("arbitrum", getenv w "ARB_RPC")] in
     reg ← connect_chains w chains reg;
     let sol_client := SolClient solana_endpoint in
     log INFO "✅ Connected to SOLANA node";;
     mret reg)
    (fun e =>
       log CRITICAL ("🔴 Blockchain connection failed: " ++ exn_str e);;
       raise e).

(** [initialize_server]: the only place that assigns [mcp.state.clients]. *)
Definition initialize_server (w : World) : M mcp_state :=
  try_except
    (reg ← initialize_blockchain_clients w;
     log INFO "🌐 All blockchain connections verified";;
     mret (mk_state (Some reg)))
    (fun e =>
       log ERROR ("💥 Critical initialization failure: " ++ exn_str e);;
       os_exit 1).

(** ** The process *)

Inductive tool_call :=
| GetWalletBalance (address chain : string)
| AnalyzeWalletRisk (address chain : string).

Definition dispatch (st : mcp_state) (w : World) (c : tool_call) : M dict :=
  match c with
  | GetWalletBalance address chain => get_wallet_balance st w address chain
  | AnalyzeWalletRisk address chain => analyze_wallet_risk st w address chain
  end.

(** [mcp.run(transport="stdio")]: the tool calls received are answered
    one after the other against the server object. *)
Fixpoint mcp_run (st : mcp_state) (w : World) (calls : list tool_call) : M (list dict) :=
  match calls with
  | [] => mret []
  | c :: rest =>
      r ← dispatch st w c;
      rs ← mcp_run st w rest;
      mret (r :: rs)
  end.

(** The [__main__] block.  [interrupted] tells whether the run loop is
    ended by a keyboard interrupt; the value of
    [initialize_blockchain_clients()] is not bound to anything. *)
Definition main (w : World) (calls : list tool_call) (interrupted : bool) : M (list dict) :=
  log INFO "🚀 Starting MCP Server: Crypto Balance Analyzer";;
  try_except
    (_ ← initialize_blockchain_clients w;
     served ← mcp_run mcp_initial w calls;
     if interrupted then
       log INFO "🛑 Server stopped by user";; mret served
     else
       log INFO "🤖 Ready to receive Claude requests";; mret served)
    (fun e => log CRITICAL ("💥 Fatal error: " ++ exn_str e);; mret []).

(** The status the process ends with: the script running to its end
    gives 0, an uncaught exception 1, [os._exit(n)] gives [n]. *)
Definition exit_status {A} (c : M A) : Z :=
  match run_outcome c with
  | Ok _ => 0
  | Raise _ => 1
  | Exit n => n
  end.

(** The tool calls answered by the process. *)
Definition served_calls (c : M (list dict)) : list dict :=
  match run_outcome c with
  | Ok rs => rs
  | _ => []
  end.

(** ** Vocabulary of the specification *)

(** The account-model chains: alias (lower case), registry key and the
    name reported in the [chain] field. *)
Definition evm_chains : list (string * string * string) :=
  [("eth", "ethereum", "Ethereum");
   ("ethereum", "ethereum", "Ethereum");
   ("polygon", "polygon", "Polygon");
   ("matic", "polygon", "Polygon");
   ("arbitrum", "arbitrum", "Arbitrum")].

(** The six supported aliases. *)
Definition supported_aliases : list string :=
  ["eth"; "ethereum"; "polygon"; "matic"; "arbitrum"; "solana"].

(** The canonical name of an alias given in lower case. *)
Definition canonical_name (alias : string) : option string :=
  if Str.mem alias ["eth"; "ethereum"] then Some "Ethereum"
  else if Str.mem alias ["polygon"; "matic"] then Some "Polygon"
  else if String.eqb alias "arbitrum" then Some "Arbitrum"
  else if String.eqb alias "solana" then Some "Solana"
  else None.

(** The chains the registry is meant to hold. *)
Definition supported_chains : list string :=
  ["ethereum"; "polygon"; "arbitrum"; "solana"].

(** An error value: a dict with the key [error]. *)
Definition is_error (d : dict) : bool := dict_has d "error".

(** The score of a candidate as an exact number ([XNaN] when it has
    none). *)
Definition score_num (c : pyval) : Py.xnum :=
  match c with
  | PDict d =>
      match dict_get d "score" with
      | Some v => match Py.num_of v with Some x => x | None => Py.XNaN end
      | None => Py.XNaN
      end
  | _ => Py.XNaN
  end.

(** A candidate of the classifier: a dict whose [score] is a number
    other than NaN. *)
Definition candidate (c : pyval) : Prop :=
  exists d v x, c = PDict d /\ dict_get d "score" = Some v
                /\ Py.num_of v = Some x /\ x <> Py.XNaN.

Definition xle (x y : Py.xnum) : Prop :=
  Py.xcompare x y = Some Lt \/ Py.xcompare x y = Some Eq.

Definition xlt (x y : Py.xnum) : Prop := Py.xcompare x y = Some Lt.

(** [c] is the entry at index [i], no entry has a greater score, and
    every entry before it has a smaller one. *)
Definition first_max (l : list pyval) (i : nat) (c : pyval) : Prop :=
  l !! i = Some c
  /\ (forall j c', l !! j = Some c' -> xle (score_num c') (score_num c))
  /\ (forall j c', (j < i)%nat -> l !! j = Some c' -> xlt (score_num c') (score_num c)).

(** The success value of [analyze_wallet_risk]. *)
Definition risk_result (address chain : string) (balance risk : pyval) : dict :=
  [("address", PStr address); ("chain", PStr chain);
   ("balance", balance); ("risk_analysis", risk)].

(** The request [analyze_wallet_risk] posts for a balance. *)
Definition risk_request (w : World) (address chain : string) (balance : pyval)
    : http_request :=
  mk_request finbert_url ("Bearer " ++ Py.str_opt (getenv w "HF_TOKEN"))
    address balance chain.

(** ** Sample environments *)

Module Sample.

Definition label_score (label : string) (score : spec_float) : pyval :=
  PDict [("label", PStr label); ("score", PFloat score)].

(** The JSON numbers 0.2 and 0.9 as parsed: the nearest binary64. *)
Definition f0_2 : spec_float := F64.of_ratio 2 10.
Definition f0_9 : spec_float := F64.of_ratio 9 10.

Definition finbert_reply : list pyval :=
  [label_score "positive" f0_2; label_score "negative" f0_9].

Definition sol_address : string := "11111111111111111111111111111111".
Definition eth_address : string := "0x00000000219ab540356cBB839Cbe05303d7705Fa".

Definition env_full (k : string) : option string :=
  if String.eqb k "ETH_RPC" then Some "https://eth.example/rpc"
  else if String.eqb k "POL_RPC" then Some "https://pol.example/rpc"
  else if String.eqb k "ARB_RPC" then Some "https://arb.example/rpc"
  else if String.eqb k "HF_TOKEN" then Some "hf_token"
  else None.

(** [ETH_RPC] is not set. *)
Definition env_no_eth (k : string) : option string :=
  if String.eqb k "ETH_RPC" then None else env_full k.

Definition parse_pubkey (s : string) : string + Pubkey :=
  if String.eqb s sol_address then inr s else inl "Invalid Base58 string".

(** Every upstream answers: one ether, half a SOL, the two labels. *)
Definition world (env : string -> option string) : World :=
  mk_world env
    (fun _ => Success (mk_rpc (Some "Geth/v1.13.0")))
    (fun _ _ => Success 1000000000000000000)
    parse_pubkey
    (fun _ _ => Success 500000000)
    (fun _ => Success (mk_response (Success tt) (Success (PList finbert_reply))))
    (fun _ _ => Failure (mk_exn TypeError "unorderable")).

Definition world_ok : World := world env_full.
Definition world_no_eth : World := world env_no_eth.

(** The balance upstreams fail with a ValueError that has nothing to
    do with the address: the reply is not JSON, and the decoder's
    error is a subclass of ValueError. *)
Definition world_bad_json : World :=
  mk_world env_full
    (fun _ => Success (mk_rpc (Some "Geth/v1.13.0")))
    (fun _ _ => Failure (mk_exn ValueError "Expecting value: line 1 column 1 (char 0)"))
    parse_pubkey
    (fun _ _ => Failure (mk_exn ValueError "Expecting value: line 1 column 1 (char 0)"))
    (fun _ => Failure (mk_exn OtherException "connection refused"))
    (fun _ _ => Failure (mk_exn TypeError "unorderable")).

(** The registry [initialize_blockchain_clients] returns in
    [world_ok]. *)
Definition registry_started : gmap string client :=
  <["arbitrum" := AsyncWeb3 "https://arb.example/rpc"]>
    (<["polygon" := AsyncWeb3 "https://pol.example/rpc"]>
       (<["ethereum" := AsyncWeb3 "https://eth.example/rpc"]> ∅)).

(** A registry with all four chains. *)
Definition registry_full : gmap string client :=
  <["solana" := SolClient solana_endpoint]> registry_started.

Definition state_started : mcp_state := mk_state (Some registry_started).
Definition state_full : mcp_state := mk_state (Some registry_full).

End Sample.


(** ** Further sample environments *)

Module Scenario.

(** A world with the given environment, probe answers and classifier
    answer; balances as in [Sample.world]. *)
Definition make (env : string -> option string)
    (probe : string -> result rpc_response)
    (classifier : http_request -> result http_response) : World :=
  mk_world env probe
    (fun _ _ => Success 1000000000000000000)
    Sample.parse_pubkey
    (fun _ _ => Success 500000000)
    classifier
    (fun _ _ => Failure (mk_exn TypeError "unorderable")).

Definition probe_ok (url : string) : result rpc_response :=
  Success (mk_rpc (Some "Geth/v1.13.0")).

Definition reply (body : pyval) (req : http_request) : result http_response :=
  Success (mk_response (Success tt) (Success body)).

(** [POL_RPC] is set to the empty string. *)
Definition env_empty_pol (k : string) : option string :=
  if String.eqb k "POL_RPC" then Some EmptyString else Sample.env_full k.

(** [HF_TOKEN] is not set. *)
Definition env_no_token (k : string) : option string :=
  if String.eqb k "HF_TOKEN" then None else Sample.env_full k.

Definition world_empty_pol : World :=
  make env_empty_pol probe_ok (reply (PList Sample.finbert_reply)).

(** The ethereum node answers the probe with an error object: the
    reply has no [result]. *)
Definition world_probe_error : World :=
  make Sample.env_full (fun _ => Success (mk_rpc None))
    (reply (PList Sample.finbert_reply)).

Definition world_no_token : World :=
  make env_no_token probe_ok (reply (PList Sample.finbert_reply)).

(** The classifier answers with an empty list. *)
Definition world_empty_reply : World :=
  make Sample.env_full probe_ok (reply (PList [])).

(** The second candidate has no score. *)
Definition world_no_score : World :=
  make Sample.env_full probe_ok
    (reply (PList [Sample.label_score "positive" Sample.f0_2;
                   PDict [("label", PStr "negative")]])).

(** The classifier answers with a failing status. *)
Definition world_status_503 : World :=
  make Sample.env_full probe_ok
    (fun _ => Success (mk_response
                         (Failure (mk_exn OtherException "Server error '503 Service Unavailable'"))
                         (Success (PList Sample.finbert_reply)))).

End Scenario.

(** A syntactically invalid Solana address: the parser rejects it. *)
Definition invalid_solana_address (w : World) (address : string) : Prop :=
  exists msg, pubkey_from_string w address = inl msg.


(** A computation that does not end the process. *)
Definition no_exit {A} (c : M A) : Prop := forall n, run_outcome c <> Exit n.

(** * Properties *)

(** ** The effect monad *)

Section Monad.
Context {A B : Type}.

Lemma bind_Ok (c : M A) (f : A -> M B) a t :
  c = (Ok a, t) -> c ≫= f = (run_outcome (f a), (t ++ run_trace (f a))%list).
Proof. intros ->. unfold mbind, M_bind. by destruct (f a). Qed.

Lemma bind_Raise (c : M A) (f : A -> M B) e t :
  c = (Raise e, t) -> c ≫= f = (Raise e, t).
Proof. by intros ->. Qed.

Lemma bind_inv_Ok (c : M A) (f : A -> M B) b :
  run_outcome (c ≫= f) = Ok b ->
  exists a, run_outcome c = Ok a /\ run_outcome (f a) = Ok b.
Proof.
  destruct c as [[a|e|n] t]; unfold mbind, M_bind; simpl; try discriminate.
  destruct (f a) as [o t'] eqn:E. simpl. intros ->. exists a. by rewrite E.
Qed.

Lemma try_except_Ok (c : M A) (h : exn -> M A) a t :
  c = (Ok a, t) -> try_except c h = (Ok a, t).
Proof. by intros ->. Qed.

Lemma try_except_Raise (c : M A) (h : exn -> M A) e t :
  c = (Raise e, t) ->
  try_except c h = (run_outcome (h e), (t ++ run_trace (h e))%list).
Proof. intros ->. unfold try_except. by destruct (h e). Qed.
End Monad.

Lemma no_exit_ret {A} (a : A) : no_exit (mret a).
Proof. by intros n. Qed.

Lemma no_exit_raise {A} e : no_exit (@raise A e).
Proof. by intros n. Qed.

Lemma no_exit_of_result {A} (r : result A) : no_exit (of_result r).
Proof. by destruct r; intros n. Qed.

Lemma no_exit_emit ev : no_exit (emit ev).
Proof. by intros n. Qed.

Lemma no_exit_bind {A B} (c : M A) (f : A -> M B) :
  no_exit c -> (forall a, no_exit (f a)) -> no_exit (c ≫= f).
Proof.
  intros Hc Hf n. destruct c as [[a|e|m] t]; unfold mbind, M_bind; simpl.
  - specialize (Hf a n). destruct (f a) as [o t']. exact Hf.
  - discriminate.
  - by specialize (Hc m).
Qed.

Lemma no_exit_call {A} ev (r : result A) : no_exit (call ev r).
Proof. apply no_exit_bind; [apply no_exit_emit | intros; apply no_exit_of_result]. Qed.

Lemma no_exit_try_except {A} (c : M A) h :
  no_exit c -> (forall e, no_exit (h e)) -> no_exit (try_except c h).
Proof.
  intros Hc Hh n. destruct c as [[a|e|m] t]; simpl.
  - discriminate.
  - specialize (Hh e n). destruct (h e). exact Hh.
  - by specialize (Hc m).
Qed.

Create HintDb no_exit.
#[local] Hint Resolve no_exit_ret no_exit_raise no_exit_of_result no_exit_emit
  no_exit_call : no_exit.

Ltac no_exit_tac :=
  repeat first
    [ apply no_exit_bind; [ | intros ]
    | apply no_exit_try_except; [ | intros ]
    | solve [ auto with no_exit ]
    | match goal with
      | |- no_exit (if ?b then _ else _) => destruct b
      | |- no_exit (match ?x with _ => _ end) => destruct x
      end ].

Lemma no_exit_get_wallet_balance_body st w address chain :
  no_exit (get_wallet_balance_body st w address chain).
Proof.
  unfold get_wallet_balance_body, read_clients, getitem_client, eth_get_balance_of,
    get_balance_of, Pubkey_from_string, Py.truediv_int_float, log.
  no_exit_tac.
Qed.

(** ** The Balance Query Handler *)

Ltac inv_bind H :=
  let a := fresh "a" in
  let H1 := fresh "Hstep" in
  apply bind_inv_Ok in H as (a & H1 & H).

Lemma get_wallet_balance_except_Ok e :
  exists msg, run_outcome (get_wallet_balance_except e) = Ok (error_result msg).
Proof.
  unfold get_wallet_balance_except. destruct (isinstance_ValueError e); eauto.
Qed.

Lemma get_wallet_balance_body_Ok st w address chain d :
  run_outcome (get_wallet_balance_body st w address chain) = Ok d ->
  (exists name x, canonical_name (Str.lower chain) = Some name
                  /\ d = balance_result name x)
  \/ (canonical_name (Str.lower chain) = None /\ d = error_result "Unsupported chain").
Proof.
  unfold get_wallet_balance_body, canonical_name.
  generalize (Str.lower chain) as l. intros l H.
  inv_bind H.
  destruct (Str.mem l ["eth"; "ethereum"]).
  { do 2 inv_bind H. injection H as <-. left. eauto. }
  destruct (Str.mem l ["polygon"; "matic"]).
  { do 2 inv_bind H. injection H as <-. left. eauto. }
  destruct (String.eqb l "arbitrum").
  { do 2 inv_bind H. injection H as <-. left. eauto. }
  destruct (String.eqb l "solana").
  { do 4 inv_bind H. injection H as <-. left. eauto. }
  injection H as <-. by right.
Qed.

Lemma get_wallet_balance_cases st w address chain :
  (exists d t, get_wallet_balance_body st w address chain = (Ok d, t)
               /\ get_wallet_balance st w address chain = (Ok d, t))
  \/ (exists e t, get_wallet_balance_body st w address chain = (Raise e, t)
                  /\ get_wallet_balance st w address chain =
                     (run_outcome (get_wallet_balance_except e),
                      (t ++ run_trace (get_wallet_balance_except e))%list)).
Proof.
  unfold get_wallet_balance.
  pose proof (no_exit_get_wallet_balance_body st w address chain) as Hne.
  destruct (get_wallet_balance_body st w address chain) as [[d|e|n] t] eqn:E.
  - left. eauto.
  - right. exists e, t. split; [done|]. by apply try_except_Raise.
  - by specialize (Hne n).
Qed.

Ltac unfold_handler :=
  unfold get_wallet_balance, get_wallet_balance_body, get_wallet_balance_except,
    read_clients, getitem_client, eth_get_balance_of, get_balance_of,
    Pubkey_from_string, Py.truediv_int_float, call, of_result, log, emit, raise,
    try_except, run_trace, run_outcome, mbind, mret, M_bind, M_ret.

Lemma get_wallet_balance_no_http_post st w address chain :
  http_posts (run_trace (get_wallet_balance st w address chain)) = [].
Proof.
  unfold_handler. generalize (Str.lower chain) as l. intros l.
  repeat (case_match; simplify_eq/=; try done).
Qed.

(** C8: whatever the address, the chain string, the server state and
    the answers of the upstreams, [get_wallet_balance] returns a value
    and raises nothing: the value is a balance or a structured error,
    and it is a structured error whenever the [try] block raised. *)
Theorem get_wallet_balance_never_raises st w address chain :
  exists d,
    run_outcome (get_wallet_balance st w address chain) = Ok d
    /\ ((exists name x, d = balance_result name x) \/ (exists msg, d = error_result msg))
    /\ (forall e,
          run_outcome (get_wallet_balance_body st w address chain) = Raise e ->
          exists msg, d = error_result msg).
Proof.
  destruct (get_wallet_balance_cases st w address chain)
    as [(d & t & Hb & Hg) | (e & t & Hb & Hg)]; rewrite Hg, Hb; simpl.
  - exists d. split; [done|]. split; [|done].
    assert (run_outcome (get_wallet_balance_body st w address chain) = Ok d) as H
      by by rewrite Hb.
    apply get_wallet_balance_body_Ok in H as [(name & x & _ & ->) | [_ ->]]; eauto.
  - destruct (get_wallet_balance_except_Ok e) as [msg Hmsg].
    exists (error_result msg). rewrite Hmsg. repeat split; eauto.
Qed.

Lemma value_error_clause st w address chain e :
  run_outcome (get_wallet_balance_body st w address chain) = Raise e ->
  isinstance_ValueError e = true ->
  run_outcome (get_wallet_balance st w address chain)
  = Ok (error_result "Invalid wallet address").
Proof.
  intros Hb Hv.
  destruct (get_wallet_balance_cases st w address chain)
    as [(d & t & Hb' & Hg) | (e' & t & Hb' & Hg)]; rewrite Hb' in Hb; simplify_eq/=.
  rewrite Hg. unfold get_wallet_balance_except. by rewrite Hv.
Qed.

(** C9: a ValueError raised anywhere in the [try] block of
    [get_wallet_balance] is answered by the "Invalid wallet address"
    error, and so is one raised by the balance call of an
    account-model chain. *)
Theorem value_error_is_invalid_wallet_address st w address chain :
  (forall e,
     run_outcome (get_wallet_balance_body st w address chain) = Raise e ->
     isinstance_ValueError e = true ->
     run_outcome (get_wallet_balance st w address chain)
     = Ok (error_result "Invalid wallet address"))
  /\ (forall reg alias key name url msg,
        clients st = Some reg ->
        In (alias, key, name) evm_chains ->
        Str.lower chain = alias ->
        reg !! key = Some (AsyncWeb3 url) ->
        eth_get_balance w url address = Failure (mk_exn ValueError msg) ->
        run_outcome (get_wallet_balance st w address chain)
        = Ok (error_result "Invalid wallet address")).
Proof.
  split.
  - apply value_error_clause.
  - intros reg alias key name url msg Hst Hin Hl Hreg Hup.
    simpl in Hin.
    destruct Hin as [Hin|[Hin|[Hin|[Hin|[Hin|[]]]]]];
      injection Hin as <- <- <-; unfold_handler; rewrite Hl, Hst; cbn -[lookup];
      rewrite Hreg; cbn; by rewrite Hup.
Qed.

(** ** The Risk Analysis Handler *)

(** C5: when [get_wallet_balance] answers an address and a chain with
    an error value, [analyze_wallet_risk] on the same inputs returns
    that very value, performs the same events and nothing more, and
    posts no request to the classifier. *)
Theorem analyze_wallet_risk_propagates_error st w address chain d :
  run_outcome (get_wallet_balance st w address chain) = Ok d ->
  is_error d = true ->
  run_outcome (analyze_wallet_risk st w address chain) = Ok d
  /\ run_trace (analyze_wallet_risk st w address chain)
     = run_trace (get_wallet_balance st w address chain)
  /\ http_posts (run_trace (analyze_wallet_risk st w address chain)) = [].
Proof.
  intros Hd Herr.
  assert (analyze_wallet_risk st w address chain
          = get_wallet_balance st w address chain) as ->.
  { unfold analyze_wallet_risk, analyze_wallet_risk_body.
    destruct (get_wallet_balance st w address chain) as [o t].
    simpl in Hd. subst o. unfold is_error in Herr.
    unfold mbind, M_bind. rewrite Herr. simpl. by rewrite app_nil_r. }
  split; [done|]. split; [done|]. apply get_wallet_balance_no_http_post.
Qed.

Lemma analyze_wallet_risk_Ok st w address chain d :
  run_outcome (analyze_wallet_risk st w address chain) = Ok d ->
  is_error d = true
  \/ exists bd balance risk,
       run_outcome (get_wallet_balance st w address chain) = Ok bd
       /\ is_error bd = false
       /\ dict_get bd "balance" = Some balance
       /\ d = risk_result address chain balance risk.
Proof.
  unfold analyze_wallet_risk.
  destruct (analyze_wallet_risk_body st w address chain) as [[d'|e|n] t] eqn:E;
    simpl; intros H; simplify_eq.
  - assert (run_outcome (analyze_wallet_risk_body st w address chain) = Ok d) as Hb
      by by rewrite E.
    unfold analyze_wallet_risk_body in Hb.
    apply bind_inv_Ok in Hb as (bd & Hbd & Hb).
    destruct (dict_has bd "error") eqn:Herr.
    + injection Hb as <-. by left.
    + right. apply bind_inv_Ok in Hb as (balance & Hbal & Hb).
      do 4 inv_bind Hb. injection Hb as <-.
      exists bd, balance, a2. repeat split; try done.
      unfold Py.getitem in Hbal. by destruct (dict_get bd "balance"); simplify_eq/=.
  - by left.
Qed.

(** C10: a successful [get_wallet_balance] reports the canonical
    capitalised name of the chain, which depends only on the lower-cased
    alias; a successful [analyze_wallet_risk] reports the chain string
    exactly as the caller gave it. *)
Theorem chain_field_canonical_or_echoed st w address chain :
  (forall d,
     run_outcome (get_wallet_balance st w address chain) = Ok d ->
     is_error d = false ->
     exists name,
       canonical_name (Str.lower chain) = Some name
       /\ In name ["Ethereum"; "Polygon"; "Arbitrum"; "Solana"]
       /\ dict_get d "chain" = Some (PStr name))
  /\ (forall d,
        run_outcome (analyze_wallet_risk st w address chain) = Ok d ->
        is_error d = false ->
        dict_get d "chain" = Some (PStr chain)).
Proof.
  split.
  - intros d Hd Herr.
    destruct (get_wallet_balance_cases st w address chain)
      as [(d' & t & Hb & Hg) | (e & t & Hb & Hg)]; rewrite Hg in Hd; simpl in Hd.
    + simplify_eq.
      assert (run_outcome (get_wallet_balance_body st w address chain) = Ok d) as H
        by by rewrite Hb.
      apply get_wallet_balance_body_Ok in H as [(name & x & Hn & ->) | [_ ->]];
        [|done].
      exists name. split; [done|]. split; [|done].
      unfold canonical_name in Hn.
      repeat case_match; simplify_eq; simpl; tauto.
    + destruct (get_wallet_balance_except_Ok e) as [msg Hmsg].
      rewrite Hmsg in Hd. by simplify_eq.
  - intros d Hd Herr.
    apply analyze_wallet_risk_Ok in Hd as [Hd | (bd & balance & risk & _ & _ & _ & ->)].
    + congruence.
    + done.
Qed.

(** ** Routing *)

Lemma lit_1e9_nonzero : F64.is_zero F64.lit_1e9 = false.
Proof. by vm_compute. Qed.

Lemma lower_upper_ascii c : Str.lower_ascii (Str.upper_ascii c) = Str.lower_ascii c.
Proof. by destruct c as [[] [] [] [] [] [] [] []]. Qed.

Lemma lower_upper s : Str.lower (Str.upper s) = Str.lower s.
Proof.
  induction s as [|c s IH]; [done|].
  unfold Str.lower, Str.upper in *. simpl. by rewrite lower_upper_ascii, IH.
Qed.

Lemma get_wallet_balance_lower st w address chain chain' :
  Str.lower chain' = Str.lower chain ->
  get_wallet_balance st w address chain' = get_wallet_balance st w address chain.
Proof.
  intros H. unfold get_wallet_balance, get_wallet_balance_body. by rewrite H.
Qed.

Lemma not_supported_alias l :
  ~ In l supported_aliases ->
  Str.mem l ["eth"; "ethereum"] = false /\ Str.mem l ["polygon"; "matic"] = false
  /\ String.eqb l "arbitrum" = false /\ String.eqb l "solana" = false.
Proof.
  intros H. unfold Str.mem. simpl.
  assert (forall a, In a supported_aliases -> String.eqb l a = false) as Hne.
  { intros a Ha. apply String.eqb_neq. by intros ->. }
  rewrite !Hne by (simpl; tauto). done.
Qed.

(** Routing on a registry that has been assigned (startup supplies
    the three account-model entries only): a chain string that
    lower-cases to an alias of an account-model chain makes exactly one
    network call,
    the balance query on the client registered for that chain; one that
    lower-cases to "solana" makes exactly one call, on the Solana
    client, for an address that parses and none otherwise; any other
    chain string is answered "Unsupported chain" with no network call.
    Strings that differ only in letter case are treated alike. *)
Theorem get_wallet_balance_routes st w reg address chain :
  clients st = Some reg ->
  (forall alias key name url,
     In (alias, key, name) evm_chains ->
     Str.lower chain = alias ->
     reg !! key = Some (AsyncWeb3 url) ->
     network_calls (run_trace (get_wallet_balance st w address chain))
     = [EvEthGetBalance url address])
  /\ (forall ep,
        Str.lower chain = "solana" ->
        reg !! "solana" = Some (SolClient ep) ->
        (forall pk, pubkey_from_string w address = inr pk ->
                    network_calls (run_trace (get_wallet_balance st w address chain))
                    = [EvSolGetBalance ep pk])
        /\ (invalid_solana_address w address ->
            network_calls (run_trace (get_wallet_balance st w address chain)) = []))
  /\ (~ In (Str.lower chain) supported_aliases ->
      get_wallet_balance st w address chain
      = (Ok (error_result "Unsupported chain"), []))
  /\ get_wallet_balance st w address (Str.upper chain)
     = get_wallet_balance st w address chain.
Proof.
  intros Hst. repeat split.
  - intros alias key name url Hin Hl Hreg. simpl in Hin.
    destruct Hin as [Hin|[Hin|[Hin|[Hin|[Hin|[]]]]]];
      injection Hin as <- <- <-; unfold_handler; rewrite Hl, Hst; cbn -[lookup];
      rewrite Hreg; cbn; by destruct (eth_get_balance w url address) as [n|[[] ?]].
  - intros pk Hpk. unfold_handler. rewrite H, Hst. cbn -[lookup]. rewrite Hpk.
    cbn -[lookup]. rewrite H0. cbn.
    destruct (sol_get_balance w ep pk) as [n|[[] ?]]; try done.
    rewrite lit_1e9_nonzero. by destruct (F64.is_infinite (F64.of_int n)).
  - intros [msg Hmsg]. unfold_handler. rewrite H, Hst. cbn -[lookup]. by rewrite Hmsg.
  - intros Hno. apply not_supported_alias in Hno as (H1 & H2 & H3 & H4).
    unfold_handler. by rewrite Hst, H1, H2, H3, H4.
  - apply get_wallet_balance_lower, lower_upper.
Qed.

(** C3: the routing claim does not hold on the program.  On the state
    that a successful startup leaves, a request on "solana" with a
    well-formed address is routed to no client: the registry has no
    such entry, the lookup raises KeyError and the call returns
    {error: "'solana'"} with no network call.  Under [__main__], where
    the registry is not stored at all, an unsupported chain is not
    answered "Unsupported chain" and a request on "eth" reaches no
    client either: the only network calls are the startup probes. *)
Theorem solana_alias_reaches_no_client :
  run_outcome (initialize_server Sample.world_ok) = Ok Sample.state_started
  /\ pubkey_from_string Sample.world_ok Sample.sol_address = inr Sample.sol_address
  /\ get_wallet_balance Sample.state_started Sample.world_ok Sample.sol_address "solana"
     = (Ok (error_result "'solana'"), [EvLog ERROR "Balance check failed: 'solana'"])
  /\ network_calls
       (run_trace (get_wallet_balance Sample.state_started Sample.world_ok
                     Sample.sol_address "solana")) = []
  /\ served_calls
       (main Sample.world_ok [GetWalletBalance Sample.eth_address "bitcoin"] false)
     <> [error_result "Unsupported chain"]
  /\ network_calls
       (run_trace (main Sample.world_ok
                     [GetWalletBalance Sample.eth_address "eth"] false))
     = [EvClientVersion "https://eth.example/rpc";
        EvClientVersion "https://pol.example/rpc";
        EvClientVersion "https://arb.example/rpc"].
Proof. repeat split; by vm_compute. Qed.

(** ** The invalid-address error *)



(** ** Unit conversion *)

(** The conversions of the handler, given that the upstream returned
    the raw balance [n]: an account-model balance is reported as the
    binary64 number nearest to n / 10^18, the same scale for the three
    chains, and a Solana balance as float(n) / 1e9. *)
Theorem balance_unit_conversion st w reg address chain n :
  clients st = Some reg ->
  (forall alias key name url,
     In (alias, key, name) evm_chains ->
     Str.lower chain = alias ->
     reg !! key = Some (AsyncWeb3 url) ->
     eth_get_balance w url address = Success n ->
     run_outcome (get_wallet_balance st w address chain)
     = Ok (balance_result name (F64.of_ratio n 1000000000000000000)))
  /\ (forall ep pk,
        Str.lower chain = "solana" ->
        pubkey_from_string w address = inr pk ->
        reg !! "solana" = Some (SolClient ep) ->
        sol_get_balance w ep pk = Success n ->
        F64.is_infinite (F64.of_int n) = false ->
        run_outcome (get_wallet_balance st w address chain)
        = Ok (balance_result "Solana" (F64.div (F64.of_int n) (F64.of_int 1000000000))))
  /\ F64.of_ratio 1000000000000000000 1000000000000000000 = F64.one
  /\ F64.div (F64.of_int 500000000) (F64.of_int 1000000000) = F64.half
  /\ Py.xcompare (Py.XFin 4503599627370496 (-52)) (Py.XFin 1 0) = Some Eq
  /\ Py.xcompare (Py.XFin 4503599627370496 (-53)) (Py.XFin 1 (-1)) = Some Eq
  /\ Py.num_of (PFloat F64.one) = Some (Py.XFin 4503599627370496 (-52))
  /\ Py.num_of (PFloat F64.half) = Some (Py.XFin 4503599627370496 (-53)).
Proof.
  intros Hst. split; [|split].
  - intros alias key name url Hin Hl Hreg Hup. simpl in Hin.
    destruct Hin as [Hin|[Hin|[Hin|[Hin|[Hin|[]]]]]];
      injection Hin as <- <- <-; unfold_handler; rewrite Hl, Hst; cbn -[lookup];
      rewrite Hreg; cbn -[F64.of_ratio]; by rewrite Hup.
  - intros ep pk Hl Hpk Hreg Hup Hfin. unfold_handler. rewrite Hl, Hst.
    cbn -[lookup]. rewrite Hpk. cbn -[lookup]. rewrite Hreg.
    cbn -[F64.of_int F64.div F64.is_infinite F64.is_zero F64.lit_1e9].
    rewrite Hup. cbn -[F64.of_int F64.div F64.is_infinite F64.is_zero F64.lit_1e9].
    rewrite Hfin, lit_1e9_nonzero. done.
  - repeat split; by vm_compute.
Qed.

(** C4: the conversion claim does not hold on the program for the
    alternate chain.  With 500000000 smallest units held upstream for a
    well-formed Solana address, on the state that a successful startup
    leaves, [get_wallet_balance] reports no balance: the Solana client
    is not in the registry, so the division by 1e9, which would give
    exactly 0.5, is never reached.  On the account-model chains the
    reported balance is the raw count divided by 10^18: 10^18 is
    reported as 1.0, 5 * 10^17 as 0.5, 25 * 10^17 as 2.5, 3 * 10^18 as
    3.0, 0 as 0.0, and 1 as the binary64 number nearest to 10^-18. *)
Theorem solana_balance_never_converted :
  sol_get_balance Sample.world_ok solana_endpoint Sample.sol_address
  = Success 500000000
  /\ run_outcome (initialize_server Sample.world_ok) = Ok Sample.state_started
  /\ run_outcome (get_wallet_balance Sample.state_started Sample.world_ok
                    Sample.sol_address "solana")
     = Ok (error_result "'solana'")
  /\ run_outcome (Py.truediv_int_float 500000000 F64.lit_1e9) = Ok F64.half
  /\ run_outcome (get_wallet_balance Sample.state_started Sample.world_ok
                    Sample.eth_address "eth")
     = Ok (balance_result "Ethereum" F64.one)
  /\ py_float (from_wei_ether 1000000000000000000) = F64.one
  /\ py_float (from_wei_ether 500000000000000000) = F64.half
  /\ py_float (from_wei_ether 2500000000000000000)
     = S754_finite false 5629499534213120 (-51)
  /\ Py.xcompare (Py.XFin 5629499534213120 (-51)) (Py.XFin 5 (-1)) = Some Eq
  /\ py_float (from_wei_ether 3000000000000000000) = F64.of_int 3
  /\ py_float (from_wei_ether 0) = S754_zero false
  /\ py_float (from_wei_ether 1) = S754_finite false 5192296858534828 (-112)
  /\ Z.abs (5192296858534828 * 10 ^ 18 - 2 ^ 112) * 2 <= 10 ^ 18.
Proof. repeat split; by vm_compute. Qed.

(** ** The Startup Sequence *)

Lemma no_exit_connect_chains w chains reg : no_exit (connect_chains w chains reg).
Proof.
  revert reg.
  induction chains as [|[chain_name rpc_url] rest IH]; intros reg; cbn [connect_chains].
  - apply no_exit_ret.
  - unfold log. destruct (Py.falsy rpc_url); [apply no_exit_raise|].
    apply no_exit_bind; [apply no_exit_call|intros version].
    apply no_exit_bind; [destruct (rpc_result version); auto with no_exit|intros r].
    apply no_exit_bind; [apply no_exit_emit|intros _]. apply IH.
Qed.

Lemma no_exit_initialize_blockchain_clients w :
  no_exit (initialize_blockchain_clients w).
Proof.
  unfold initialize_blockchain_clients, log.
  apply no_exit_try_except; [|intros; no_exit_tac].
  apply no_exit_bind; [apply no_exit_connect_chains | intros; no_exit_tac].
Qed.

Ltac unfold_startup :=
  unfold initialize_blockchain_clients, connect_chains, call, of_result, log, emit,
    raise, try_except, run_trace, run_outcome, mbind, mret, M_bind, M_ret.

(** Whatever the upstreams answer, the registry returned by a
    successful [initialize_blockchain_clients] holds the three
    account-model chains and no entry for Solana. *)
Lemma initialize_blockchain_clients_registry w reg :
  run_outcome (initialize_blockchain_clients w) = Ok reg ->
  reg !! "solana" = None
  /\ exists u1 u2 u3,
       reg !! "ethereum" = Some (AsyncWeb3 u1)
       /\ reg !! "polygon" = Some (AsyncWeb3 u2)
       /\ reg !! "arbitrum" = Some (AsyncWeb3 u3).
Proof.
  unfold_startup. intros H.
  repeat (case_match; simplify_eq/=); split; try done; eauto 10.
Qed.

(** A missing or empty endpoint makes [initialize_blockchain_clients]
    raise, whatever the upstreams answer. *)
Lemma initialize_blockchain_clients_missing w :
  Py.falsy (getenv w "ETH_RPC") = true
  \/ Py.falsy (getenv w "POL_RPC") = true
  \/ Py.falsy (getenv w "ARB_RPC") = true ->
  exists e, run_outcome (initialize_blockchain_clients w) = Raise e.
Proof.
  intros H. unfold_startup.
  repeat (case_match; simplify_eq/=); eauto; destruct H as [H|[H|H]]; congruence.
Qed.

(** ** The process *)

Lemma no_exit_get_wallet_balance st w address chain :
  no_exit (get_wallet_balance st w address chain).
Proof.
  apply no_exit_try_except; [apply no_exit_get_wallet_balance_body|].
  intros e. unfold get_wallet_balance_except, log. no_exit_tac.
Qed.

Lemma no_exit_gt w a b : no_exit (Py.gt w a b).
Proof. unfold Py.gt. no_exit_tac. Qed.

Lemma no_exit_subscript x k : no_exit (Py.subscript x k).
Proof. unfold Py.subscript, Py.getitem. no_exit_tac. Qed.

Lemma no_exit_max_loop w key maxitem maxval rest :
  (forall x, no_exit (key x)) -> no_exit (Py.max_loop w key maxitem maxval rest).
Proof.
  intros Hkey. revert maxitem maxval.
  induction rest as [|item rest IH]; intros maxitem maxval; cbn [Py.max_loop].
  - apply no_exit_ret.
  - apply no_exit_bind; [apply Hkey|intros val].
    apply no_exit_bind; [apply no_exit_gt|intros []]; apply IH.
Qed.

Lemma no_exit_max_by w key iterable :
  (forall x, no_exit (key x)) -> no_exit (Py.max_by w key iterable).
Proof.
  intros Hkey. unfold Py.max_by.
  apply no_exit_bind; [unfold Py.iterate; no_exit_tac|intros [|first rest]].
  - apply no_exit_raise.
  - apply no_exit_bind; [apply Hkey|intros val]. by apply no_exit_max_loop.
Qed.

Lemma no_exit_analyze_wallet_risk st w address chain :
  no_exit (analyze_wallet_risk st w address chain).
Proof.
  apply no_exit_try_except.
  - unfold analyze_wallet_risk_body.
    apply no_exit_bind; [apply no_exit_get_wallet_balance|intros bd].
    destruct (dict_has bd "error"); [apply no_exit_ret|].
    apply no_exit_bind; [unfold Py.getitem; no_exit_tac|intros balance].
    apply no_exit_bind; [apply no_exit_call|intros response].
    apply no_exit_bind; [apply no_exit_of_result|intros _].
    apply no_exit_bind; [apply no_exit_of_result|intros results].
    apply no_exit_bind; [|intros; apply no_exit_ret].
    apply no_exit_max_by. intros x. apply no_exit_subscript.
  - intros e. unfold analyze_wallet_risk_except, log. no_exit_tac.
Qed.

Lemma no_exit_mcp_run st w calls : no_exit (mcp_run st w calls).
Proof.
  induction calls as [|c rest IH]; cbn [mcp_run]; [apply no_exit_ret|].
  apply no_exit_bind.
  - destruct c; [apply no_exit_get_wallet_balance|apply no_exit_analyze_wallet_risk].
  - intros r. apply no_exit_bind; [apply IH|intros; apply no_exit_ret].
Qed.

(** X18: however startup goes and whatever is served, [__main__] runs
    to its end: the process status is 0. *)
Lemma main_exit_status w calls interrupted :
  exit_status (main w calls interrupted) = 0.
Proof.
  assert (no_exit (main w calls interrupted)) as Hne.
  { unfold main, log. apply no_exit_bind; [apply no_exit_emit|intros _].
    apply no_exit_try_except; [|intros; no_exit_tac].
    apply no_exit_bind; [apply no_exit_initialize_blockchain_clients|intros _].
    apply no_exit_bind; [apply no_exit_mcp_run|intros served].
    destruct interrupted; no_exit_tac. }
  assert (forall e, run_outcome (main w calls interrupted) <> Raise e) as Hnr.
  { intros e. unfold main, log, emit. unfold mbind at 1. unfold M_bind at 1.
    match goal with |- context [try_except ?c ?h] => destruct c as [[a|e'|n] t] end;
      by simpl. }
  unfold exit_status.
  destruct (run_outcome (main w calls interrupted)) as [a|e|n] eqn:E;
    [done | by destruct (Hnr e) | by destruct (Hne n)].
Qed.

(** With an endpoint missing, no tool call is answered. *)
Lemma main_missing_serves_nothing w calls interrupted :
  Py.falsy (getenv w "ETH_RPC") = true
  \/ Py.falsy (getenv w "POL_RPC") = true
  \/ Py.falsy (getenv w "ARB_RPC") = true ->
  served_calls (main w calls interrupted) = [].
Proof.
  intros H. apply initialize_blockchain_clients_missing in H as [e He].
  unfold served_calls, main, log, emit. unfold mbind at 1. unfold M_bind at 1.
  destruct (initialize_blockchain_clients w) as [o t]. simpl in He. subst o.
  by simpl.
Qed.

(** C1: the registry invariant does not hold on the code.  With the
    three endpoints configured and every probe answered, startup
    succeeds with a registry that has no entry for Solana; a balance
    request for Solana then contacts no client, and the process keeps
    answering requests.  Under [__main__] the registry is not even
    stored: the handlers find [mcp.state.clients] unassigned. *)
Theorem startup_registry_lacks_solana :
  run_outcome (initialize_blockchain_clients Sample.world_ok)
  = Ok Sample.registry_started
  /\ In "solana" supported_chains
  /\ Sample.registry_started !! "solana" = None
  /\ run_outcome (initialize_server Sample.world_ok) = Ok Sample.state_started
  /\ get_wallet_balance Sample.state_started Sample.world_ok Sample.sol_address "solana"
     = (Ok (error_result "'solana'"), [EvLog ERROR "Balance check failed: 'solana'"])
  /\ clients mcp_initial = None
  /\ List.map is_error
       (served_calls
          (main Sample.world_ok
             [GetWalletBalance Sample.sol_address "solana";
              GetWalletBalance Sample.eth_address "eth"] false))
     = [true; true].
Proof. repeat split; try (by vm_compute). simpl. tauto. Qed.

(** C2: with [ETH_RPC] unset, [__main__] logs the failure, naming the
    chain, and answers no tool call, but the process status is 0; only
    [initialize_server], which [__main__] does not call, ends the
    process with status 1. *)
Theorem main_missing_endpoint_status_zero :
  getenv Sample.world_no_eth "ETH_RPC" = None
  /\ main Sample.world_no_eth [GetWalletBalance Sample.eth_address "eth"] false
     = (Ok [],
        [EvLog INFO "🚀 Starting MCP Server: Crypto Balance Analyzer";
         EvLog CRITICAL "🔴 Blockchain connection failed: Missing RPC URL for ethereum";
         EvLog CRITICAL "💥 Fatal error: Missing RPC URL for ethereum"])
  /\ exit_status
       (main Sample.world_no_eth [GetWalletBalance Sample.eth_address "eth"] false) = 0
  /\ served_calls
       (main Sample.world_no_eth [GetWalletBalance Sample.eth_address "eth"] false) = []
  /\ exit_status (initialize_server Sample.world_no_eth) = 1.
Proof. repeat split; by vm_compute. Qed.

(** ** The order on scores *)

Lemma compare_scale m1 e1 m2 e2 k :
  k <= e1 -> k <= e2 ->
  (m1 * 2 ^ (e1 - Z.min e1 e2) ?= m2 * 2 ^ (e2 - Z.min e1 e2))%Z
  = (m1 * 2 ^ (e1 - k) ?= m2 * 2 ^ (e2 - k))%Z.
Proof.
  intros H1 H2. set (e := Z.min e1 e2).
  assert (k <= e) as Hk by (unfold e; lia).
  assert (e <= e1 /\ e <= e2) as [He1 He2] by (unfold e; lia).
  replace (e1 - k) with ((e1 - e) + (e - k)) by lia.
  replace (e2 - k) with ((e2 - e) + (e - k)) by lia.
  rewrite !Z.pow_add_r by lia. rewrite !Z.mul_assoc.
  apply Zmult_compare_compat_r. apply Z.lt_gt, Z.pow_pos_nonneg; lia.
Qed.

Lemma xcompare_fin m1 e1 m2 e2 k :
  k <= e1 -> k <= e2 ->
  Py.xcompare (Py.XFin m1 e1) (Py.XFin m2 e2)
  = Some (m1 * 2 ^ (e1 - k) ?= m2 * 2 ^ (e2 - k))%Z.
Proof. intros H1 H2. simpl. f_equal. by apply compare_scale. Qed.

Lemma xle_refl x : x <> Py.XNaN -> xle x x.
Proof.
  destruct x as [|[]|m e]; intros H; try done; right; simpl; try done.
  by rewrite Z.compare_refl.
Qed.

Lemma xlt_xle x y : xlt x y -> xle x y.
Proof. by left. Qed.

Lemma not_xgt_xle x y :
  x <> Py.XNaN -> y <> Py.XNaN -> Py.xgt x y = false -> xle x y.
Proof.
  unfold Py.xgt, xle. intros Hx Hy.
  destruct x as [|[]|m1 e1], y as [|[]|m2 e2]; try done; simpl; try tauto.
  destruct (_ ?= _)%Z; try done; tauto.
Qed.

Lemma xle_xgt_xlt x m y :
  xle x m -> Py.xgt y m = true -> xlt x y.
Proof.
  unfold Py.xgt, xle, xlt.
  destruct x as [|[]|m1 e1], m as [|[]|m2 e2], y as [|[]|m3 e3];
    try (simpl; by intuition congruence).
  set (k := Z.min e1 (Z.min e2 e3)).
  rewrite (xcompare_fin m1 e1 m2 e2 k), (xcompare_fin m3 e3 m2 e2 k),
    (xcompare_fin m1 e1 m3 e3 k) by (unfold k; lia).
  intros Hle Hgt. f_equal.
  destruct (m3 * 2 ^ (e3 - k) ?= m2 * 2 ^ (e2 - k))%Z eqn:E3; try done.
  rewrite Z.compare_gt_iff in E3. rewrite Z.compare_lt_iff.
  destruct Hle as [Hle|Hle]; injection Hle as Hle.
  - rewrite Z.compare_lt_iff in Hle. lia.
  - rewrite Z.compare_eq_iff in Hle. lia.
Qed.

(** ** Selecting the classifier's candidate *)

Lemma bind_pure {A B} (c : M A) (f : A -> M B) a :
  c = (Ok a, []) -> c ≫= f = f a.
Proof. intros ->. unfold mbind, M_bind. by destruct (f a). Qed.

Lemma candidate_score c :
  candidate c ->
  exists v, Py.subscript c "score" = (Ok v, [])
            /\ Py.num_of v = Some (score_num c) /\ score_num c <> Py.XNaN.
Proof.
  intros (d & v & x & -> & Hv & Hx & Hnan). exists v.
  unfold Py.subscript, Py.getitem, score_num. by rewrite Hv, Hx.
Qed.

Lemma gt_numbers w a b x y :
  Py.num_of a = Some x -> Py.num_of b = Some y ->
  Py.gt w a b = (Ok (Py.xgt x y), []).
Proof. intros Ha Hb. unfold Py.gt. by rewrite Ha, Hb. Qed.

Lemma first_max_singleton c : candidate c -> first_max [c] 0 c.
Proof.
  intros Hc. destruct (candidate_score c Hc) as (v & _ & _ & Hnan).
  split; [done|]. split.
  - intros [|j] c' Hj; simplify_eq/=. by apply xle_refl.
  - intros j c' Hj. lia.
Qed.

Lemma first_max_keep pre i m y :
  candidate y -> first_max pre i m -> score_num m <> Py.XNaN ->
  Py.xgt (score_num y) (score_num m) = false ->
  first_max (pre ++ [y]) i m.
Proof.
  intros Hy (Hi & Hall & Hbefore) Hm Hgt.
  destruct (candidate_score y Hy) as (v & _ & _ & Hnan).
  assert (i < length pre)%nat as Hlt by by eapply lookup_lt_Some.
  split; [by rewrite lookup_app_l|]. split.
  - intros j c' Hj. apply lookup_app_Some in Hj as [Hj|[_ Hj]]; [by eapply Hall|].
    apply list_lookup_singleton_Some in Hj as [_ <-]. by apply not_xgt_xle.
  - intros j c' Hji Hj. rewrite lookup_app_l in Hj by lia. by eapply Hbefore.
Qed.

Lemma first_max_replace pre i m y :
  candidate y -> first_max pre i m ->
  Py.xgt (score_num y) (score_num m) = true ->
  first_max (pre ++ [y]) (length pre) y.
Proof.
  intros Hy (Hi & Hall & Hbefore) Hgt.
  destruct (candidate_score y Hy) as (v & _ & _ & Hnan).
  split; [by rewrite lookup_app_r, Nat.sub_diag by lia|]. split.
  - intros j c' Hj. apply lookup_app_Some in Hj as [Hj|[_ Hj]].
    + apply xlt_xle. eapply xle_xgt_xlt; [by eapply Hall|done].
    + apply list_lookup_singleton_Some in Hj as [_ <-]. by apply xle_refl.
  - intros j c' Hjl Hj. rewrite lookup_app_l in Hj by lia.
    eapply xle_xgt_xlt; [by eapply Hall|done].
Qed.

(** The loop of [max] keeps the first maximal candidate. *)
Lemma max_loop_first_max w rest :
  forall pre i m vm,
    Forall candidate rest ->
    first_max pre i m ->
    Py.num_of vm = Some (score_num m) -> score_num m <> Py.XNaN ->
    exists i' c,
      Py.max_loop w (fun x => Py.subscript x "score") m vm rest = (Ok c, [])
      /\ first_max (pre ++ rest) i' c.
Proof.
  induction rest as [|y rest IH]; intros pre i m vm Hrest Hmax Hvm Hnan.
  - exists i, m. by rewrite app_nil_r.
  - apply Forall_cons in Hrest as [Hy Hrest].
    destruct (candidate_score y Hy) as (vy & Hsub & Hvy & Hynan).
    cbn [Py.max_loop]. rewrite (bind_pure _ _ vy Hsub).
    rewrite (bind_pure _ _ _ (gt_numbers w vy vm _ _ Hvy Hvm)).
    replace (pre ++ y :: rest)%list with ((pre ++ [y]) ++ rest)%list
      by by rewrite <- app_assoc.
    destruct (Py.xgt (score_num y) (score_num m)) eqn:Hgt.
    + eapply IH; eauto using first_max_replace.
    + eapply IH; eauto using first_max_keep.
Qed.

Lemma max_by_first_max w first rest :
  Forall candidate (first :: rest) ->
  exists i c,
    Py.max_by w (fun x => Py.subscript x "score") (PList (first :: rest)) = (Ok c, [])
    /\ first_max (first :: rest) i c.
Proof.
  intros H. apply Forall_cons in H as [Hf Hrest].
  destruct (candidate_score first Hf) as (v & Hsub & Hv & Hnan).
  unfold Py.max_by, Py.iterate. rewrite (bind_pure _ _ (first :: rest) eq_refl).
  rewrite (bind_pure _ _ v Hsub).
  apply (max_loop_first_max w rest [first] 0%nat first v); auto.
  by apply first_max_singleton.
Qed.

(** C7: when the balance query succeeds and the classifier answers
    with a non-empty list of candidates, [analyze_wallet_risk] returns
    the address, the chain, the balance and, under [risk_analysis], the
    candidate of maximal score that comes first in the list; for the
    candidates (positive, 0.2), (negative, 0.9) it is (negative, 0.9). *)
Theorem analyze_wallet_risk_selects_first_max
    st w address chain bd balance response first rest :
  run_outcome (get_wallet_balance st w address chain) = Ok bd ->
  is_error bd = false ->
  dict_get bd "balance" = Some balance ->
  http_post w (risk_request w address chain balance) = Success response ->
  raise_for_status response = Success tt ->
  json response = Success (PList (first :: rest)) ->
  Forall candidate (first :: rest) ->
  (exists i c,
     run_outcome (analyze_wallet_risk st w address chain)
     = Ok (risk_result address chain balance c)
     /\ first_max (first :: rest) i c)
  /\ Py.max_by w (fun x => Py.subscript x "score") (PList Sample.finbert_reply)
     = (Ok (Sample.label_score "negative" Sample.f0_9), []).
Proof.
  intros Hbd Herr Hbal Hpost Hstatus Hjson Hcand. split; [|by vm_compute].
  destruct (max_by_first_max w first rest Hcand) as (i & c & Hmax & Hfm).
  exists i, c. split; [|done].
  unfold analyze_wallet_risk, analyze_wallet_risk_body.
  destruct (get_wallet_balance st w address chain) as [o t].
  simpl in Hbd. subst o. unfold is_error in Herr.
  unfold mbind at 1. unfold M_bind at 1. rewrite Herr.
  unfold Py.getitem. rewrite Hbal. rewrite (bind_pure _ _ balance eq_refl).
  fold (risk_request w address chain balance).
  unfold call, emit, of_result. rewrite Hpost. cbn -[Py.max_by].
  rewrite Hstatus. cbn -[Py.max_by]. rewrite Hjson. cbn -[Py.max_by].
  by rewrite Hmax.
Qed.

(** ** The theorems at concrete inputs *)

Lemma get_wallet_balance_never_raises_witness :
  exists d,
    run_outcome (get_wallet_balance Sample.state_started Sample.world_bad_json
                   Sample.eth_address "eth") = Ok d
    /\ ((exists name x, d = balance_result name x) \/ (exists msg, d = error_result msg))
    /\ (forall e,
          run_outcome (get_wallet_balance_body Sample.state_started
                         Sample.world_bad_json Sample.eth_address "eth") = Raise e ->
          exists msg, d = error_result msg).
Proof.
  exact (get_wallet_balance_never_raises Sample.state_started Sample.world_bad_json
           Sample.eth_address "eth").
Defined.

Lemma value_error_is_invalid_wallet_address_witness :
  clients Sample.state_started = Some Sample.registry_started
  /\ In ("eth", "ethereum", "Ethereum") evm_chains
  /\ Str.lower "ETH" = "eth"
  /\ Sample.registry_started !! "ethereum" = Some (AsyncWeb3 "https://eth.example/rpc")
  /\ eth_get_balance Sample.world_bad_json "https://eth.example/rpc" Sample.eth_address
     = Failure (mk_exn ValueError "Expecting value: line 1 column 1 (char 0)")
  /\ run_outcome (get_wallet_balance Sample.state_started Sample.world_bad_json
                    Sample.eth_address "ETH")
     = Ok (error_result "Invalid wallet address").
Proof.
  assert (In ("eth", "ethereum", "Ethereum") evm_chains) as Hin by (simpl; tauto).
  split; [reflexivity|]. split; [exact Hin|]. do 3 (split; [reflexivity|]).
  exact (proj2 (value_error_is_invalid_wallet_address Sample.state_started
                  Sample.world_bad_json Sample.eth_address "ETH")
           Sample.registry_started "eth" "ethereum" "Ethereum"
           "https://eth.example/rpc" "Expecting value: line 1 column 1 (char 0)"
           eq_refl Hin eq_refl eq_refl eq_refl).
Defined.

Lemma analyze_wallet_risk_propagates_error_witness :
  run_outcome (get_wallet_balance Sample.state_started Sample.world_ok
                 Sample.eth_address "bitcoin") = Ok (error_result "Unsupported chain")
  /\ is_error (error_result "Unsupported chain") = true
  /\ run_outcome (analyze_wallet_risk Sample.state_started Sample.world_ok
                    Sample.eth_address "bitcoin") = Ok (error_result "Unsupported chain")
  /\ run_trace (analyze_wallet_risk Sample.state_started Sample.world_ok
                  Sample.eth_address "bitcoin")
     = run_trace (get_wallet_balance Sample.state_started Sample.world_ok
                    Sample.eth_address "bitcoin")
  /\ http_posts (run_trace (analyze_wallet_risk Sample.state_started Sample.world_ok
                              Sample.eth_address "bitcoin")) = [].
Proof.
  split; [reflexivity|]. split; [reflexivity|].
  exact (analyze_wallet_risk_propagates_error Sample.state_started Sample.world_ok
           Sample.eth_address "bitcoin" (error_result "Unsupported chain")
           eq_refl eq_refl).
Defined.

Lemma chain_field_canonical_or_echoed_witness :
  (exists name,
     canonical_name (Str.lower "MATIC") = Some name
     /\ In name ["Ethereum"; "Polygon"; "Arbitrum"; "Solana"]
     /\ dict_get (balance_result "Polygon" F64.one) "chain" = Some (PStr name))
  /\ dict_get
       (risk_result Sample.eth_address "MATIC" (PFloat F64.one)
          (Sample.label_score "negative" Sample.f0_9)) "chain"
     = Some (PStr "MATIC").
Proof.
  pose proof (chain_field_canonical_or_echoed Sample.state_started Sample.world_ok
                Sample.eth_address "MATIC") as [H1 H2].
  split.
  - apply (H1 (balance_result "Polygon" F64.one)); reflexivity.
  - apply (H2 (risk_result Sample.eth_address "MATIC" (PFloat F64.one)
                 (Sample.label_score "negative" Sample.f0_9))); reflexivity.
Defined.

Lemma get_wallet_balance_routes_witness :
  clients Sample.state_full = Some Sample.registry_full
  /\ network_calls (run_trace (get_wallet_balance Sample.state_full Sample.world_ok
                                 Sample.eth_address "Matic"))
     = [EvEthGetBalance "https://pol.example/rpc" Sample.eth_address]
  /\ network_calls (run_trace (get_wallet_balance Sample.state_full Sample.world_ok
                                 Sample.sol_address "SOLANA"))
     = [EvSolGetBalance solana_endpoint Sample.sol_address]
  /\ network_calls (run_trace (get_wallet_balance Sample.state_full Sample.world_ok
                                 "not-base58" "solana")) = []
  /\ get_wallet_balance Sample.state_full Sample.world_ok Sample.eth_address "bitcoin"
     = (Ok (error_result "Unsupported chain"), [])
  /\ get_wallet_balance Sample.state_full Sample.world_ok Sample.eth_address
       (Str.upper "arbitrum")
     = get_wallet_balance Sample.state_full Sample.world_ok Sample.eth_address "arbitrum".
Proof.
  split; [reflexivity|]. split; [|split; [|split; [|split]]].
  - apply (proj1 (get_wallet_balance_routes Sample.state_full Sample.world_ok
                    Sample.registry_full Sample.eth_address "Matic" eq_refl)
             "matic" "polygon" "Polygon" "https://pol.example/rpc");
      [simpl; tauto | reflexivity | reflexivity].
  - apply (proj1 (proj1 (proj2 (get_wallet_balance_routes Sample.state_full
                                  Sample.world_ok Sample.registry_full
                                  Sample.sol_address "SOLANA" eq_refl))
                    solana_endpoint eq_refl eq_refl)).
    reflexivity.
  - apply (proj2 (proj1 (proj2 (get_wallet_balance_routes Sample.state_full
                                  Sample.world_ok Sample.registry_full
                                  "not-base58" "solana" eq_refl))
                    solana_endpoint eq_refl eq_refl)).
    exists "Invalid Base58 string". reflexivity.
  - apply (proj1 (proj2 (proj2 (get_wallet_balance_routes Sample.state_full
                                  Sample.world_ok Sample.registry_full
                                  Sample.eth_address "bitcoin" eq_refl)))).
    simpl. intros H. repeat (destruct H as [H|H]; [discriminate H|]). exact H.
  - apply (proj2 (proj2 (proj2 (get_wallet_balance_routes Sample.state_full
                                  Sample.world_ok Sample.registry_full
                                  Sample.eth_address "arbitrum" eq_refl)))).
Defined.


Lemma balance_unit_conversion_witness :
  clients Sample.state_full = Some Sample.registry_full
  /\ run_outcome (get_wallet_balance Sample.state_full Sample.world_ok
                    Sample.eth_address "ethereum")
     = Ok (balance_result "Ethereum" F64.one)
  /\ run_outcome (get_wallet_balance Sample.state_full Sample.world_ok
                    Sample.sol_address "solana")
     = Ok (balance_result "Solana" F64.half).
Proof.
  split; [reflexivity|]. split.
  - pose proof (proj1 (balance_unit_conversion Sample.state_full Sample.world_ok
                         Sample.registry_full Sample.eth_address "ethereum"
                         1000000000000000000 eq_refl)
                  "ethereum" "ethereum" "Ethereum" "https://eth.example/rpc") as H.
    rewrite H; [reflexivity | simpl; tauto | reflexivity | reflexivity | reflexivity].
  - pose proof (proj1 (proj2 (balance_unit_conversion Sample.state_full Sample.world_ok
                                Sample.registry_full Sample.sol_address "solana"
                                500000000 eq_refl))
                  solana_endpoint Sample.sol_address) as H.
    rewrite H; reflexivity.
Defined.

Lemma analyze_wallet_risk_selects_first_max_witness :
  Forall candidate Sample.finbert_reply
  /\ exists i c,
       run_outcome (analyze_wallet_risk Sample.state_started Sample.world_ok
                      Sample.eth_address "ETH")
       = Ok (risk_result Sample.eth_address "ETH" (PFloat F64.one) c)
       /\ first_max Sample.finbert_reply i c.
Proof.
  assert (Forall candidate Sample.finbert_reply) as Hc.
  { repeat constructor.
    - exists [("label", PStr "positive"); ("score", PFloat Sample.f0_2)],
        (PFloat Sample.f0_2), (Py.XFin 7205759403792794 (-55)).
      repeat split; try reflexivity. discriminate.
    - exists [("label", PStr "negative"); ("score", PFloat Sample.f0_9)],
        (PFloat Sample.f0_9), (Py.XFin 8106479329266893 (-53)).
      repeat split; try reflexivity. discriminate. }
  split; [exact Hc|].
  exact (proj1 (analyze_wallet_risk_selects_first_max Sample.state_started
                  Sample.world_ok Sample.eth_address "ETH"
                  (balance_result "Ethereum" F64.one) (PFloat F64.one)
                  (mk_response (Success tt) (Success (PList Sample.finbert_reply)))
                  (Sample.label_score "positive" Sample.f0_2)
                  [Sample.label_score "negative" Sample.f0_9]
                  eq_refl eq_refl eq_refl eq_refl eq_refl eq_refl Hc)).
Defined.

(** * Further properties of the code *)

(** ** Startup *)

(** The shape of a successful startup. *)
Lemma startup_success_shape w reg :
  run_outcome (initialize_blockchain_clients w) = Ok reg ->
  exists u1 u2 u3,
    getenv w "ETH_RPC" = Some u1 /\ getenv w "POL_RPC" = Some u2
    /\ getenv w "ARB_RPC" = Some u3
    /\ u1 <> EmptyString /\ u2 <> EmptyString /\ u3 <> EmptyString
    /\ reg = <["arbitrum" := AsyncWeb3 u3]>
               (<["polygon" := AsyncWeb3 u2]> (<["ethereum" := AsyncWeb3 u1]> ∅))
    /\ network_calls (run_trace (initialize_blockchain_clients w))
       = [EvClientVersion u1; EvClientVersion u2; EvClientVersion u3].
Proof.
  unfold_startup. unfold Py.falsy. intros H.
  destruct (getenv w "ETH_RPC") as [u1|] eqn:E1; [|done].
  destruct (getenv w "POL_RPC") as [u2|] eqn:E2;
    [|repeat (case_match; simplify_eq/=)].
  destruct (getenv w "ARB_RPC") as [u3|] eqn:E3;
    [|repeat (case_match; simplify_eq/=)].
  exists u1, u2, u3.
  destruct (String.eqb_spec u1 EmptyString) as [->|N1]; [done|].
  destruct (String.eqb_spec u2 EmptyString) as [->|N2];
    [repeat (case_match; simplify_eq/=)|].
  destruct (String.eqb_spec u3 EmptyString) as [->|N3];
    [repeat (case_match; simplify_eq/=)|].
  repeat (case_match; simplify_eq/=); done.
Qed.

(** X1: a successful [initialize_blockchain_clients] has read three
    non-empty endpoints and probed each once, in the order ethereum,
    polygon, arbitrum; the registry it returns maps these three chains
    to clients for the configured URLs and has no other key. *)
Theorem startup_success_registry w reg :
  run_outcome (initialize_blockchain_clients w) = Ok reg ->
  exists u1 u2 u3,
    (getenv w "ETH_RPC" = Some u1 /\ getenv w "POL_RPC" = Some u2
     /\ getenv w "ARB_RPC" = Some u3)
    /\ (u1 <> EmptyString /\ u2 <> EmptyString /\ u3 <> EmptyString)
    /\ (reg !! "ethereum" = Some (AsyncWeb3 u1)
        /\ reg !! "polygon" = Some (AsyncWeb3 u2)
        /\ reg !! "arbitrum" = Some (AsyncWeb3 u3))
    /\ (forall k, ~ In k ["ethereum"; "polygon"; "arbitrum"] -> reg !! k = None)
    /\ network_calls (run_trace (initialize_blockchain_clients w))
       = [EvClientVersion u1; EvClientVersion u2; EvClientVersion u3].
Proof.
  intros H.
  destruct (startup_success_shape w reg H)
    as (u1 & u2 & u3 & E1 & E2 & E3 & N1 & N2 & N3 & -> & Hnet).
  exists u1, u2, u3. repeat split; try done.
  intros k Hk. simpl in Hk.
  rewrite !lookup_insert_ne by (intros <-; tauto). apply lookup_empty.
Qed.

(** X2: the endpoints are checked one chain at a time, each chain being
    probed before the next is looked at.  A missing or empty [ETH_RPC]
    fails startup before any network call, naming ethereum; a missing or
    empty [POL_RPC] is reported, naming polygon, only after the
    ethereum node has been probed. *)
Theorem missing_endpoint_named w :
  (Py.falsy (getenv w "ETH_RPC") = true ->
   run_outcome (initialize_blockchain_clients w)
   = Raise (mk_exn ValueError "Missing RPC URL for ethereum")
   /\ network_calls (run_trace (initialize_blockchain_clients w)) = [])
  /\ (forall u1 v,
        getenv w "ETH_RPC" = Some u1 -> u1 <> EmptyString ->
        web3_client_version w u1 = Success (mk_rpc (Some v)) ->
        Py.falsy (getenv w "POL_RPC") = true ->
        run_outcome (initialize_blockchain_clients w)
        = Raise (mk_exn ValueError "Missing RPC URL for polygon")
        /\ network_calls (run_trace (initialize_blockchain_clients w))
           = [EvClientVersion u1]).
Proof.
  split.
  - intros H. unfold_startup. by rewrite H.
  - intros u1 v E1 N1 Hp H2. unfold_startup. rewrite E1, H2. simpl.
    apply String.eqb_neq in N1. by rewrite N1, Hp.
Qed.

(** X3: with any of the three endpoints absent or empty, startup
    raises whatever the upstreams answer, and [__main__] answers no tool
    call. *)
Theorem missing_endpoint_aborts_startup w calls interrupted :
  Py.falsy (getenv w "ETH_RPC") = true
  \/ Py.falsy (getenv w "POL_RPC") = true
  \/ Py.falsy (getenv w "ARB_RPC") = true ->
  (exists e, run_outcome (initialize_blockchain_clients w) = Raise e)
  /\ run_outcome (main w calls interrupted) = Ok [].
Proof.
  intros H. apply initialize_blockchain_clients_missing in H as [e He].
  split; [by exists e|].
  unfold main, log, emit. unfold mbind at 1. unfold M_bind at 1.
  destruct (initialize_blockchain_clients w) as [o t]. simpl in He. by subst o.
Qed.

(** X4: when [initialize_blockchain_clients] fails, the last thing it
    does is to log the failure at CRITICAL level, and the exception it
    raises is the one that was caught. *)
Theorem startup_failure_logged w e :
  run_outcome (initialize_blockchain_clients w) = Raise e ->
  exists t,
    run_trace (initialize_blockchain_clients w)
    = (t ++ [EvLog CRITICAL ("🔴 Blockchain connection failed: " ++ exn_str e)])%list.
Proof.
  unfold initialize_blockchain_clients.
  match goal with |- context [try_except ?c ?h] => destruct c as [[a|e'|n] t] end;
    simpl; intros H; simplify_eq. by exists t.
Qed.


(** X6: a probe that is answered without a [result] (an error object)
    aborts startup with KeyError 'result', although the node answered. *)
Theorem probe_without_result_aborts w u1 :
  getenv w "ETH_RPC" = Some u1 -> u1 <> EmptyString ->
  web3_client_version w u1 = Success (mk_rpc None) ->
  run_outcome (initialize_blockchain_clients w) = Raise (key_error "result")
  /\ exit_status (initialize_server w) = 1.
Proof.
  intros E1 N1 Hp. apply String.eqb_neq in N1.
  unfold initialize_server. unfold_startup. unfold exit_status, Py.falsy.
  rewrite E1. simpl. by rewrite N1, Hp.
Qed.

(** X7: [initialize_server] never raises: it returns the server state
    holding the registry of a successful startup, or it logs the failure
    at ERROR level and ends the process with status 1. *)
Theorem initialize_server_outcome w :
  (exists reg,
     run_outcome (initialize_blockchain_clients w) = Ok reg
     /\ run_outcome (initialize_server w) = Ok (mk_state (Some reg)))
  \/ (exists e t,
        run_outcome (initialize_blockchain_clients w) = Raise e
        /\ initialize_server w
           = (Exit 1,
              (t ++ [EvLog ERROR ("💥 Critical initialization failure: " ++ exn_str e)])%list)).
Proof.
  pose proof (no_exit_initialize_blockchain_clients w) as Hne.
  unfold initialize_server, log, emit.
  destruct (initialize_blockchain_clients w) as [[reg|e|n] t].
  - left. by exists reg.
  - right. by exists e, t.
  - by specialize (Hne n).
Qed.

(** ** The handlers *)

Lemma bind_trace_nil {A B} (c : M A) (f : A -> M B) :
  run_trace c = [] -> (forall a, run_trace (f a) = []) -> run_trace (c ≫= f) = [].
Proof.
  destruct c as [[a|e|n] t]; simpl; intros ->; intros Hf; try done.
  unfold mbind, M_bind. specialize (Hf a). destruct (f a) as [o t']. simpl in *.
  by subst t'.
Qed.

Lemma gt_trace_nil w a b : run_trace (Py.gt w a b) = [].
Proof.
  unfold Py.gt. repeat case_match; try done.
  all: by destruct (seq_gt w _ _).
Qed.

Lemma subscript_trace_nil x k : run_trace (Py.subscript x k) = [].
Proof. unfold Py.subscript, Py.getitem. by repeat case_match. Qed.

Lemma max_loop_trace_nil w maxitem maxval rest :
  run_trace (Py.max_loop w (fun x => Py.subscript x "score") maxitem maxval rest) = [].
Proof.
  revert maxitem maxval.
  induction rest as [|item rest IH]; intros maxitem maxval; cbn [Py.max_loop]; [done|].
  apply bind_trace_nil; [apply subscript_trace_nil|intros val].
  apply bind_trace_nil; [apply gt_trace_nil|intros []]; apply IH.
Qed.

Lemma max_by_trace_nil w results :
  run_trace (Py.max_by w (fun x => Py.subscript x "score") results) = [].
Proof.
  unfold Py.max_by. apply bind_trace_nil.
  - unfold Py.iterate. by repeat case_match.
  - intros [|first rest]; [done|].
    apply bind_trace_nil; [apply subscript_trace_nil|intros val].
    apply max_loop_trace_nil.
Qed.

Lemma get_wallet_balance_success_trace st w address chain d :
  run_outcome (get_wallet_balance st w address chain) = Ok d ->
  is_error d = false ->
  exists ev, is_network ev = true /\ is_http_post ev = false
             /\ run_trace (get_wallet_balance st w address chain) = [ev].
Proof.
  unfold_handler. generalize (Str.lower chain) as l. intros l Hd Herr.
  repeat (case_match; simplify_eq/=; try done);
    match goal with |- exists ev, _ /\ _ /\ [?e] = [ev] => by exists e end.
Qed.

Lemma get_wallet_balance_calls_le st w address chain :
  (length (network_calls (run_trace (get_wallet_balance st w address chain))) <= 1)%nat.
Proof.
  unfold_handler. generalize (Str.lower chain) as l. intros l.
  repeat (case_match; simplify_eq/=; try lia).
Qed.

Lemma get_wallet_balance_success_balance st w address chain d :
  run_outcome (get_wallet_balance st w address chain) = Ok d ->
  is_error d = false ->
  exists name x, d = balance_result name x.
Proof.
  intros Hd Herr.
  destruct (get_wallet_balance_cases st w address chain)
    as [(d' & t & Hb & Hg) | (e & t & Hb & Hg)]; rewrite Hg in Hd; simpl in Hd.
  - simplify_eq.
    assert (run_outcome (get_wallet_balance_body st w address chain) = Ok d) as H
      by by rewrite Hb.
    apply get_wallet_balance_body_Ok in H as [(name & x & _ & ->) | [_ ->]]; eauto.
    done.
  - destruct (get_wallet_balance_except_Ok e) as [msg Hmsg].
    rewrite Hmsg in Hd. by simplify_eq.
Qed.

(** What [analyze_wallet_risk] does once the balance query has
    succeeded: one post, then the first failure, if any, reported with
    its own text. *)
Lemma analyze_wallet_risk_after_balance st w address chain bd t balance :
  get_wallet_balance st w address chain = (Ok bd, t) ->
  is_error bd = false ->
  dict_get bd "balance" = Some balance ->
  let req := risk_request w address chain balance in
  let failed e :=
    (Ok (error_result (exn_str e)),
     (t ++ [EvHttpPost req; EvLog ERROR ("Risk analysis failed: " ++ exn_str e)])%list) in
  analyze_wallet_risk st w address chain
  = match http_post w req with
    | Failure e => failed e
    | Success response =>
        match raise_for_status response with
        | Failure e => failed e
        | Success _ =>
            match json response with
            | Failure e => failed e
            | Success results =>
                match run_outcome
                        (Py.max_by w (fun x => Py.subscript x "score") results) with
                | Ok risk =>
                    (Ok (risk_result address chain balance risk),
                     (t ++ [EvHttpPost req])%list)
                | Raise e => failed e
                | Exit n => (Exit n, (t ++ [EvHttpPost req])%list)
                end
            end
        end
    end.
Proof.
  intros Hg Herr Hbal req failed. subst failed.
  unfold analyze_wallet_risk, analyze_wallet_risk_body. rewrite Hg.
  unfold is_error in Herr. unfold mbind at 1. unfold M_bind at 1. rewrite Herr.
  unfold Py.getitem. rewrite Hbal. rewrite (bind_pure _ _ balance eq_refl).
  fold (risk_request w address chain balance). fold req.
  unfold call, emit, of_result, analyze_wallet_risk_except, log, emit.
  destruct (http_post w req) as [response|e];
    [|simpl; by rewrite <- ?app_assoc].
  cbn -[Py.max_by]. destruct (raise_for_status response) as [[]|e];
    [|simpl; by rewrite <- ?app_assoc].
  cbn -[Py.max_by]. destruct (json response) as [results|e];
    [|simpl; by rewrite <- ?app_assoc].
  cbn -[Py.max_by].
  pose proof (max_by_trace_nil w results) as Hnil.
  destruct (Py.max_by w (fun x => Py.subscript x "score") results) as [[risk|e|n] t'];
    simpl in Hnil; subst t'; simpl; by rewrite ?app_nil_r, <- ?app_assoc.
Qed.

(** X8: [get_wallet_balance] makes at most one network call, and a
    balance is never reported without one: a successful call performs
    exactly one event, the balance query, and logs nothing. *)
Theorem get_wallet_balance_one_round_trip st w address chain :
  (length (network_calls (run_trace (get_wallet_balance st w address chain))) <= 1)%nat
  /\ (forall d,
        run_outcome (get_wallet_balance st w address chain) = Ok d ->
        is_error d = false ->
        exists ev, is_network ev = true
                   /\ run_trace (get_wallet_balance st w address chain) = [ev]).
Proof.
  split; [apply get_wallet_balance_calls_le|].
  intros d Hd Herr.
  destruct (get_wallet_balance_success_trace st w address chain d Hd Herr)
    as (ev & Hn & _ & Ht). eauto.
Qed.

(** X9: [analyze_wallet_risk] never raises: it returns an error value
    or the four-field success value for the caller's address and
    chain. *)
Theorem analyze_wallet_risk_never_raises st w address chain :
  exists d,
    run_outcome (analyze_wallet_risk st w address chain) = Ok d
    /\ (is_error d = true
        \/ exists balance risk, d = risk_result address chain balance risk).
Proof.
  pose proof (no_exit_analyze_wallet_risk st w address chain) as Hne.
  destruct (run_outcome (analyze_wallet_risk st w address chain)) as [d|e|n] eqn:E.
  - exists d. split; [done|].
    apply analyze_wallet_risk_Ok in E as [?|(bd & balance & risk & _ & _ & _ & ->)];
      eauto.
  - exfalso. revert E. unfold analyze_wallet_risk.
    by destruct (analyze_wallet_risk_body st w address chain) as [[?|?|?] ?].
  - by destruct (Hne n).
Qed.

(** X10: a successful [analyze_wallet_risk] has made exactly two
    network calls: the balance query, then one post to the classifier
    carrying the address, the chain as given and the balance it
    reports; nothing was logged. *)
Theorem analyze_wallet_risk_success_trace st w address chain d :
  run_outcome (analyze_wallet_risk st w address chain) = Ok d ->
  is_error d = false ->
  exists ev balance risk,
    is_network ev = true /\ is_http_post ev = false
    /\ run_trace (get_wallet_balance st w address chain) = [ev]
    /\ d = risk_result address chain balance risk
    /\ run_trace (analyze_wallet_risk st w address chain)
       = [ev; EvHttpPost (risk_request w address chain balance)].
Proof.
  intros Hd Herr.
  destruct (analyze_wallet_risk_Ok st w address chain d Hd)
    as [?|(bd & balance & risk & Hbd & Hbe & Hbal & ->)]; [congruence|].
  destruct (get_wallet_balance_success_trace st w address chain bd Hbd Hbe)
    as (ev & Hn & Hp & Ht).
  exists ev, balance, risk. repeat split; try done.
  destruct (get_wallet_balance st w address chain) as [o t] eqn:Hg.
  simpl in Hbd, Ht. subst o t.
  pose proof (analyze_wallet_risk_after_balance st w address chain bd [ev] balance
                Hg Hbe Hbal) as Ha. simpl in Ha.
  rewrite Ha in Hd |- *.
  repeat (case_match; simplify_eq/=; try done).
Qed.

(** X11: once the balance query has succeeded, exactly one request is
    posted to the classifier, whatever it answers; it goes to the
    FinBERT URL, and with [HF_TOKEN] unset it is still sent, with the
    header "Bearer None". *)
Theorem analyze_wallet_risk_posts_once st w address chain bd balance :
  run_outcome (get_wallet_balance st w address chain) = Ok bd ->
  is_error bd = false ->
  dict_get bd "balance" = Some balance ->
  http_posts (run_trace (analyze_wallet_risk st w address chain))
  = [EvHttpPost (risk_request w address chain balance)]
  /\ req_url (risk_request w address chain balance) = finbert_url
  /\ (getenv w "HF_TOKEN" = None ->
      req_authorization (risk_request w address chain balance) = "Bearer None").
Proof.
  intros Hbd Herr Hbal. split; [|split; [done|by intros H; simpl; rewrite H]].
  destruct (get_wallet_balance_success_trace st w address chain bd Hbd Herr)
    as (ev & Hn & Hp & Ht).
  destruct (get_wallet_balance st w address chain) as [o t] eqn:Hg.
  simpl in Hbd, Ht. subst o t.
  rewrite (analyze_wallet_risk_after_balance st w address chain bd [ev] balance
             Hg Herr Hbal).
  repeat case_match; unfold run_trace; simpl; by rewrite Hp.
Qed.

(** X12: a failure of the classifier step (the request itself, a
    non-success status, a body that is not JSON) is reported as
    {error: str(e)} whatever the class of the exception: here a
    ValueError is not turned into "Invalid wallet address". *)
Theorem classifier_failure_reported st w address chain bd balance e :
  run_outcome (get_wallet_balance st w address chain) = Ok bd ->
  is_error bd = false ->
  dict_get bd "balance" = Some balance ->
  http_post w (risk_request w address chain balance) = Failure e
  \/ (exists response,
        http_post w (risk_request w address chain balance) = Success response
        /\ (raise_for_status response = Failure e
            \/ (raise_for_status response = Success tt
                /\ json response = Failure e))) ->
  run_outcome (analyze_wallet_risk st w address chain) = Ok (error_result (exn_str e)).
Proof.
  intros Hbd Herr Hbal Hfail.
  destruct (get_wallet_balance st w address chain) as [o t] eqn:Hg.
  simpl in Hbd. subst o.
  rewrite (analyze_wallet_risk_after_balance st w address chain bd t balance
             Hg Herr Hbal).
  destruct Hfail as [->|(response & -> & [->|[-> ->]])]; done.
Qed.

Lemma max_loop_missing_score w c rest :
  In c rest ->
  (forall v, run_outcome (Py.subscript c "score") <> Ok v) ->
  forall maxitem maxval r,
    run_outcome (Py.max_loop w (fun x => Py.subscript x "score") maxitem maxval rest)
    <> Ok r.
Proof.
  intros Hin Hc. induction rest as [|y rest IH]; [done|].
  intros maxitem maxval r H. cbn [Py.max_loop] in H.
  apply bind_inv_Ok in H as (val & Hval & H).
  apply bind_inv_Ok in H as (b & Hb & H).
  destruct Hin as [->|Hin]; [by apply (Hc val)|].
  destruct b; by apply (IH Hin _ _ _ H).
Qed.

(** X13: every candidate is asked for its score, not only the
    greatest: if any entry of the classifier's list is a dict without
    the key [score], the call returns an error value. *)
Theorem candidate_without_score_is_error
    st w address chain bd balance response l c fields :
  run_outcome (get_wallet_balance st w address chain) = Ok bd ->
  is_error bd = false ->
  dict_get bd "balance" = Some balance ->
  http_post w (risk_request w address chain balance) = Success response ->
  raise_for_status response = Success tt ->
  json response = Success (PList l) ->
  In c l -> c = PDict fields -> dict_get fields "score" = None ->
  exists msg,
    run_outcome (analyze_wallet_risk st w address chain) = Ok (error_result msg).
Proof.
  intros Hbd Herr Hbal Hpost Hstatus Hjson Hin -> Hscore.
  assert (forall v, run_outcome (Py.subscript (PDict fields) "score") <> Ok v) as Hc.
  { intros v. unfold Py.subscript, Py.getitem. by rewrite Hscore. }
  assert (forall r, run_outcome
                      (Py.max_by w (fun x => Py.subscript x "score") (PList l)) <> Ok r)
    as Hmax.
  { intros r H. unfold Py.max_by, Py.iterate in H.
    rewrite (bind_pure _ _ l eq_refl) in H.
    destruct l as [|first rest]; [done|].
    apply bind_inv_Ok in H as (val & Hval & H).
    destruct Hin as [->|Hin]; [by apply (Hc val)|].
    by apply (max_loop_missing_score w _ rest Hin Hc _ _ _ H). }
  pose proof (no_exit_max_by w (fun x => Py.subscript x "score") (PList l)
                (fun x => no_exit_subscript x "score")) as Hne.
  destruct (get_wallet_balance st w address chain) as [o t] eqn:Hg.
  simpl in Hbd. subst o.
  rewrite (analyze_wallet_risk_after_balance st w address chain bd t balance
             Hg Herr Hbal), Hpost, Hstatus, Hjson.
  destruct (run_outcome (Py.max_by w _ (PList l))) as [r|e|n] eqn:E.
  - by destruct (Hmax r).
  - by exists (exn_str e).
  - by destruct (Hne n).
Qed.

(** X14: an empty list from the classifier is an error, reported by
    the handler's only clause after the request has been posted. *)
Theorem empty_reply_is_error st w address chain bd balance response :
  run_outcome (get_wallet_balance st w address chain) = Ok bd ->
  is_error bd = false ->
  dict_get bd "balance" = Some balance ->
  http_post w (risk_request w address chain balance) = Success response ->
  raise_for_status response = Success tt ->
  json response = Success (PList []) ->
  exists msg,
    run_outcome (analyze_wallet_risk st w address chain) = Ok (error_result msg)
    /\ http_posts (run_trace (analyze_wallet_risk st w address chain))
       = [EvHttpPost (risk_request w address chain balance)].
Proof.
  intros Hbd Herr Hbal Hpost Hstatus Hjson.
  destruct (get_wallet_balance_success_trace st w address chain bd Hbd Herr)
    as (ev & Hn & Hp & Ht).
  destruct (get_wallet_balance st w address chain) as [o t] eqn:Hg.
  simpl in Hbd, Ht. subst o t.
  rewrite (analyze_wallet_risk_after_balance st w address chain bd [ev] balance
             Hg Herr Hbal), Hpost, Hstatus, Hjson.
  eexists. split; [reflexivity|]. unfold run_trace. simpl. by rewrite Hp.
Qed.

(** ** Startup and handlers together *)

(** X15: on the state that a successful [initialize_server] leaves, a
    request on an ethereum alias queries the URL configured in
    [ETH_RPC], while a request on "solana" with a well-formed address
    finds no client: it returns {error: "'solana'"} and makes no
    network call. *)
Theorem handlers_after_initialize_server w st :
  run_outcome (initialize_server w) = Ok st ->
  (exists u1,
     getenv w "ETH_RPC" = Some u1
     /\ forall w' address chain,
          Str.mem (Str.lower chain) ["eth"; "ethereum"] = true ->
          network_calls (run_trace (get_wallet_balance st w' address chain))
          = [EvEthGetBalance u1 address])
  /\ (forall w' address chain pk,
        Str.lower chain = "solana" ->
        pubkey_from_string w' address = inr pk ->
        get_wallet_balance st w' address chain
        = (Ok (error_result "'solana'"),
           [EvLog ERROR "Balance check failed: 'solana'"])).
Proof.
  intros Hst.
  destruct (initialize_server_outcome w) as [(reg & Hreg & Hs)|(e & t & _ & Hs)];
    rewrite Hs in Hst; simplify_eq/=.
  destruct (startup_success_shape w reg Hreg)
    as (u1 & u2 & u3 & E1 & _ & _ & _ & _ & _ & Hshape & _).
  assert (reg !! "ethereum" = Some (AsyncWeb3 u1)) as Heth
    by (subst reg; by simplify_map_eq).
  assert (reg !! "solana" = None) as Hsol by (subst reg; by simplify_map_eq).
  clear Hshape. split.
  - exists u1. split; [done|]. intros w' address chain Hmem.
    unfold_handler. unfold Str.mem. simpl existsb. rewrite Hmem.
    cbn -[lookup]. rewrite Heth. cbn.
    by destruct (eth_get_balance w' u1 address) as [n|[[] ?]].
  - intros w' address chain pk Hl Hpk. unfold_handler. rewrite Hl.
    cbn -[lookup]. rewrite Hpk. cbn -[lookup]. by rewrite Hsol.
Qed.

Lemma dispatch_initial w c :
  exists msg t,
    dispatch mcp_initial w c = (Ok (error_result msg), t) /\ network_calls t = [].
Proof.
  destruct c as [address chain|address chain]; simpl.
  - by eexists _, _.
  - unfold analyze_wallet_risk, analyze_wallet_risk_body. by eexists _, _.
Qed.

Lemma mcp_run_initial w calls :
  exists rs t,
    mcp_run mcp_initial w calls = (Ok rs, t)
    /\ forallb is_error rs = true /\ length rs = length calls
    /\ network_calls t = [].
Proof.
  induction calls as [|c rest (rs & t & Hrun & Herr & Hlen & Hnet)]; cbn [mcp_run].
  - by exists [], [].
  - destruct (dispatch_initial w c) as (msg & t0 & Hd & Hn0). rewrite Hd, Hrun.
    exists (error_result msg :: rs), (t0 ++ t)%list. simpl.
    rewrite app_nil_r, Herr, Hlen. repeat split; try done.
    unfold network_calls in *. by rewrite List.filter_app, Hn0, Hnet.
Qed.

(** X16: run through [__main__], the server never reports a balance:
    the registry is not stored, so every tool call it answers gets an
    error value, and no call beyond the startup probes reaches the
    network. *)
Theorem main_serves_only_errors w calls interrupted :
  forallb is_error (served_calls (main w calls interrupted)) = true
  /\ network_calls (run_trace (main w calls interrupted))
     = network_calls (run_trace (initialize_blockchain_clients w)).
Proof.
  pose proof (no_exit_initialize_blockchain_clients w) as Hne.
  destruct (mcp_run_initial w calls) as (rs & t & Hrun & Herr & _ & Hnet).
  unfold served_calls, main, log, emit. unfold mbind at 1 3. unfold M_bind at 1 3.
  destruct (initialize_blockchain_clients w) as [[reg|e|n] t0].
  - rewrite Hrun. unfold network_calls in *.
    destruct interrupted; simpl; rewrite ?List.filter_app, ?Hnet; simpl;
      by rewrite ?app_nil_r.
  - simpl. unfold network_calls. rewrite List.filter_app. simpl.
    by rewrite app_nil_r.
  - by specialize (Hne n).
Qed.

(** X17: with the registry in place, [analyze_wallet_risk] on an
    unsupported chain returns "Unsupported chain" and does nothing
    else: no network call, no log entry. *)
Theorem analyze_wallet_risk_unsupported_chain st w reg address chain :
  clients st = Some reg ->
  ~ In (Str.lower chain) supported_aliases ->
  analyze_wallet_risk st w address chain = (Ok (error_result "Unsupported chain"), []).
Proof.
  intros Hst Hno. apply not_supported_alias in Hno as (H1 & H2 & H3 & H4).
  assert (get_wallet_balance st w address chain
          = (Ok (error_result "Unsupported chain"), [])) as Hg.
  { unfold_handler. by rewrite Hst, H1, H2, H3, H4. }
  unfold analyze_wallet_risk, analyze_wallet_risk_body. by rewrite Hg.
Qed.

(** ** The further properties at concrete inputs *)

Lemma startup_success_registry_witness :
  run_outcome (initialize_blockchain_clients Sample.world_ok)
  = Ok Sample.registry_started
  /\ exists u1 u2 u3,
       (getenv Sample.world_ok "ETH_RPC" = Some u1
        /\ getenv Sample.world_ok "POL_RPC" = Some u2
        /\ getenv Sample.world_ok "ARB_RPC" = Some u3)
       /\ (u1 <> EmptyString /\ u2 <> EmptyString /\ u3 <> EmptyString)
       /\ (Sample.registry_started !! "ethereum" = Some (AsyncWeb3 u1)
           /\ Sample.registry_started !! "polygon" = Some (AsyncWeb3 u2)
           /\ Sample.registry_started !! "arbitrum" = Some (AsyncWeb3 u3))
       /\ (forall k, ~ In k ["ethereum"; "polygon"; "arbitrum"] ->
                     Sample.registry_started !! k = None)
       /\ network_calls (run_trace (initialize_blockchain_clients Sample.world_ok))
          = [EvClientVersion u1; EvClientVersion u2; EvClientVersion u3].
Proof.
  split; [reflexivity|].
  exact (startup_success_registry Sample.world_ok Sample.registry_started eq_refl).
Defined.

Lemma missing_endpoint_named_witness :
  Py.falsy (getenv Sample.world_no_eth "ETH_RPC") = true
  /\ run_outcome (initialize_blockchain_clients Sample.world_no_eth)
     = Raise (mk_exn ValueError "Missing RPC URL for ethereum")
  /\ Py.falsy (getenv Scenario.world_empty_pol "POL_RPC") = true
  /\ run_outcome (initialize_blockchain_clients Scenario.world_empty_pol)
     = Raise (mk_exn ValueError "Missing RPC URL for polygon")
  /\ network_calls (run_trace (initialize_blockchain_clients Scenario.world_empty_pol))
     = [EvClientVersion "https://eth.example/rpc"].
Proof.
  split; [reflexivity|]. split.
  - exact (proj1 (proj1 (missing_endpoint_named Sample.world_no_eth) eq_refl)).
  - split; [reflexivity|].
    apply (proj2 (missing_endpoint_named Scenario.world_empty_pol)
             "https://eth.example/rpc" "Geth/v1.13.0");
      [reflexivity | discriminate | reflexivity | reflexivity].
Defined.

Lemma missing_endpoint_aborts_startup_witness :
  Py.falsy (getenv Scenario.world_empty_pol "POL_RPC") = true
  /\ (exists e,
        run_outcome (initialize_blockchain_clients Scenario.world_empty_pol) = Raise e)
  /\ run_outcome (main Scenario.world_empty_pol
                    [GetWalletBalance Sample.eth_address "eth"] false) = Ok [].
Proof.
  split; [reflexivity|].
  apply (missing_endpoint_aborts_startup Scenario.world_empty_pol).
  right. left. reflexivity.
Defined.

Lemma startup_failure_logged_witness :
  run_outcome (initialize_blockchain_clients Sample.world_no_eth)
  = Raise (mk_exn ValueError "Missing RPC URL for ethereum")
  /\ exists t,
       run_trace (initialize_blockchain_clients Sample.world_no_eth)
       = (t ++ [EvLog CRITICAL
                  ("🔴 Blockchain connection failed: "
                   ++ exn_str (mk_exn ValueError "Missing RPC URL for ethereum"))])%list.
Proof.
  split; [reflexivity|].
  exact (startup_failure_logged Sample.world_no_eth
           (mk_exn ValueError "Missing RPC URL for ethereum") eq_refl).
Defined.

Lemma probe_without_result_aborts_witness :
  getenv Scenario.world_probe_error "ETH_RPC" = Some "https://eth.example/rpc"
  /\ web3_client_version Scenario.world_probe_error "https://eth.example/rpc"
     = Success (mk_rpc None)
  /\ run_outcome (initialize_blockchain_clients Scenario.world_probe_error)
     = Raise (key_error "result")
  /\ exit_status (initialize_server Scenario.world_probe_error) = 1.
Proof.
  split; [reflexivity|]. split; [reflexivity|].
  apply (probe_without_result_aborts Scenario.world_probe_error
           "https://eth.example/rpc"); [reflexivity | discriminate | reflexivity].
Defined.

Lemma get_wallet_balance_one_round_trip_witness :
  run_outcome (get_wallet_balance Sample.state_started Sample.world_ok
                 Sample.eth_address "eth") = Ok (balance_result "Ethereum" F64.one)
  /\ exists ev,
       is_network ev = true
       /\ run_trace (get_wallet_balance Sample.state_started Sample.world_ok
                       Sample.eth_address "eth") = [ev].
Proof.
  split; [reflexivity|].
  exact (proj2 (get_wallet_balance_one_round_trip Sample.state_started Sample.world_ok
                  Sample.eth_address "eth")
           (balance_result "Ethereum" F64.one) eq_refl eq_refl).
Defined.

Lemma analyze_wallet_risk_success_trace_witness :
  run_outcome (analyze_wallet_risk Sample.state_started Sample.world_ok
                 Sample.eth_address "ETH")
  = Ok (risk_result Sample.eth_address "ETH" (PFloat F64.one)
          (Sample.label_score "negative" Sample.f0_9))
  /\ exists ev balance risk,
       is_network ev = true /\ is_http_post ev = false
       /\ run_trace (get_wallet_balance Sample.state_started Sample.world_ok
                       Sample.eth_address "ETH") = [ev]
       /\ risk_result Sample.eth_address "ETH" (PFloat F64.one)
            (Sample.label_score "negative" Sample.f0_9)
          = risk_result Sample.eth_address "ETH" balance risk
       /\ run_trace (analyze_wallet_risk Sample.state_started Sample.world_ok
                       Sample.eth_address "ETH")
          = [ev; EvHttpPost (risk_request Sample.world_ok Sample.eth_address "ETH"
                               balance)].
Proof.
  split; [reflexivity|].
  exact (analyze_wallet_risk_success_trace Sample.state_started Sample.world_ok
           Sample.eth_address "ETH" _ eq_refl eq_refl).
Defined.

Lemma analyze_wallet_risk_posts_once_witness :
  getenv Scenario.world_no_token "HF_TOKEN" = None
  /\ http_posts (run_trace (analyze_wallet_risk Sample.state_started
                              Scenario.world_no_token Sample.eth_address "eth"))
     = [EvHttpPost (mk_request finbert_url "Bearer None" Sample.eth_address
                      (PFloat F64.one) "eth")].
Proof.
  split; [reflexivity|].
  exact (proj1 (analyze_wallet_risk_posts_once Sample.state_started
                  Scenario.world_no_token Sample.eth_address "eth"
                  (balance_result "Ethereum" F64.one) (PFloat F64.one)
                  eq_refl eq_refl eq_refl)).
Defined.

Lemma classifier_failure_reported_witness :
  run_outcome (analyze_wallet_risk Sample.state_started Scenario.world_status_503
                 Sample.eth_address "eth")
  = Ok (error_result "Server error '503 Service Unavailable'").
Proof.
  apply (classifier_failure_reported Sample.state_started Scenario.world_status_503
           Sample.eth_address "eth" (balance_result "Ethereum" F64.one)
           (PFloat F64.one)
           (mk_exn OtherException "Server error '503 Service Unavailable'")
           eq_refl eq_refl eq_refl).
  right. eexists. split; [reflexivity|]. left. reflexivity.
Defined.

Lemma candidate_without_score_is_error_witness :
  exists msg,
    run_outcome (analyze_wallet_risk Sample.state_started Scenario.world_no_score
                   Sample.eth_address "eth") = Ok (error_result msg).
Proof.
  apply (candidate_without_score_is_error Sample.state_started Scenario.world_no_score
           Sample.eth_address "eth" (balance_result "Ethereum" F64.one)
           (PFloat F64.one)
           (mk_response (Success tt)
              (Success (PList [Sample.label_score "positive" Sample.f0_2;
                               PDict [("label", PStr "negative")]])))
           [Sample.label_score "positive" Sample.f0_2;
            PDict [("label", PStr "negative")]]
           (PDict [("label", PStr "negative")]) [("label", PStr "negative")]);
    try reflexivity.
  simpl. tauto.
Defined.

Lemma empty_reply_is_error_witness :
  exists msg,
    run_outcome (analyze_wallet_risk Sample.state_started Scenario.world_empty_reply
                   Sample.eth_address "eth") = Ok (error_result msg)
    /\ http_posts (run_trace (analyze_wallet_risk Sample.state_started
                                Scenario.world_empty_reply Sample.eth_address "eth"))
       = [EvHttpPost (risk_request Scenario.world_empty_reply Sample.eth_address "eth"
                        (PFloat F64.one))].
Proof.
  exact (empty_reply_is_error Sample.state_started Scenario.world_empty_reply
           Sample.eth_address "eth" (balance_result "Ethereum" F64.one)
           (PFloat F64.one) (mk_response (Success tt) (Success (PList [])))
           eq_refl eq_refl eq_refl eq_refl eq_refl eq_refl).
Defined.

Lemma handlers_after_initialize_server_witness :
  run_outcome (initialize_server Sample.world_ok) = Ok Sample.state_started
  /\ network_calls (run_trace (get_wallet_balance Sample.state_started
                                 Sample.world_bad_json Sample.eth_address "Ethereum"))
     = [EvEthGetBalance "https://eth.example/rpc" Sample.eth_address]
  /\ get_wallet_balance Sample.state_started Sample.world_ok Sample.sol_address "Solana"
     = (Ok (error_result "'solana'"), [EvLog ERROR "Balance check failed: 'solana'"]).
Proof.
  split; [reflexivity|].
  destruct (handlers_after_initialize_server Sample.world_ok Sample.state_started
              eq_refl) as [(u1 & Hu & Heth) Hsol].
  split.
  - injection Hu as <-.
    exact (Heth Sample.world_bad_json Sample.eth_address "Ethereum" eq_refl).
  - exact (Hsol Sample.world_ok Sample.sol_address "Solana" Sample.sol_address
             eq_refl eq_refl).
Defined.

Lemma analyze_wallet_risk_unsupported_chain_witness :
  clients Sample.state_started = Some Sample.registry_started
  /\ analyze_wallet_risk Sample.state_started Sample.world_ok Sample.eth_address
       "bitcoin"
     = (Ok (error_result "Unsupported chain"), []).
Proof.
  split; [reflexivity|].
  apply (analyze_wallet_risk_unsupported_chain Sample.state_started Sample.world_ok
           Sample.registry_started Sample.eth_address "bitcoin" eq_refl).
  simpl. intros H. repeat (destruct H as [H|H]; [discriminate H|]). exact H.
Defined.
